(** * mixpanel-go: event construction, enrichment and response classification

    A shallow embedding of [mixpanel.go] and of the [Import] and
    [ListLookupTables] operations of [ingestion.go].

    Conventions of the embedding.
    - A Go [map[string]any] is a reference that may be nil: it is modelled as
      [option (gmap string value)], [None] being the nil map.  Reading a nil
      map yields the zero value, writing to it panics.
    - Code that can panic runs in the monad [run]; the mutation of a map
      through a method is modelled by passing the updated value on.
    - Receivers and pointer arguments are taken to be non-nil.
    - Go's [(T, error)] results where exactly one side is set are modelled
      by [result T]. *)

From Stdlib Require Import ZArith Floats Ascii.
From stdpp Require Import gmap strings list fin_maps sorting pretty.

#[local] Set Warnings "-register-all".
#[local] Open Scope Z_scope.

(** ** Dynamic values

    The fragment of Go's [any] that the package stores in an event itself
    (strings, the [int64] of [AddTime]) together with everything
    [encoding/json] produces when it decodes into an [any]: nil, [bool],
    [float64], [string], [[]any] and [map[string]any].  Slices and maps are
    references, so both have a nil form. *)

Inductive value :=
| VNil
| VBool (b : bool)
| VString (s : string)
| VInt64 (n : Z)
| VFloat64 (f : float)
| VNilSlice
| VSlice (xs : list value)
| VNilMap
| VMap (m : gmap string value).

(** [v.(string)] and [v.(map[string]any)] in their two-result form. *)
Definition assert_string (v : value) : option string :=
  match v with
  | VString s => Some s
  | _ => None
  end.

Definition assert_map (v : value) : option (option (gmap string value)) :=
  match v with
  | VMap m => Some (Some m)
  | VNilMap => Some None
  | _ => None
  end.

(** ** Panics *)

Inductive run (A : Type) :=
| Ret (a : A)
| Panic (msg : string).
Arguments Ret {A} a.
Arguments Panic {A} msg.

#[global] Instance run_ret : MRet run := @Ret.
#[global] Instance run_bind : MBind run := λ A B f r,
  match r with
  | Ret a => f a
  | Panic msg => Panic msg
  end.

(** ** Go maps *)

(** [make(map[string]any)] *)
Definition make_map : option (gmap string value) := Some ∅.

(** [m[k]] as an expression: the zero value of [any] when the key is absent
    or the map is nil. *)
Definition map_index (m : option (gmap string value)) (k : string) : value :=
  match m with
  | Some g => default VNil (g !! k)
  | None => VNil
  end.

(** [m[k] = v] *)
Definition map_assign (m : option (gmap string value)) (k : string) (v : value)
  : run (option (gmap string value)) :=
  match m with
  | Some g => Ret (Some (<[k := v]> g))
  | None => Panic "assignment to entry in nil map"
  end.

(** ** Errors

    The dynamic types behind the [error] values the two files return. *)

Record ImportFailedRecords := {
  ImportFailedRecords_Index : Z;
  ImportFailedRecords_InsertID : Z;
  ImportFailedRecords_Field : string;
  ImportFailedRecords_Message : string
}.

Record ImportFailedValidationError := {
  ImportFailedValidationError_Code : Z;
  ImportFailedValidationError_ApiError : string;
  ImportFailedValidationError_Status : value;
  ImportFailedValidationError_NumRecordsImported : Z;
  FailedImportRecords : list ImportFailedRecords
}.

Record ImportGenericError := {
  ImportGenericError_Code : Z;
  ImportGenericError_ApiError : string;
  ImportGenericError_Status : value
}.

Record LookupTableError := {
  LookupTableError_Code : Z;
  LookupTableError_ApiError : string;
  LookupTableError_Status : value
}.

Inductive error :=
| ErrString (msg : string)
    (* errors.New(msg), and fmt.Errorf without a %w verb *)
| ErrWrap (msg : string) (err : error)
    (* fmt.Errorf with a %w verb: the formatted text and the wrapped error *)
| ErrLibrary (msg : string)
    (* an error made outside the package (encoding/json, net/http) *)
| ErrImportFailedValidation (e : ImportFailedValidationError)
| ErrImportGeneric (e : ImportGenericError)
| ErrLookupTable (e : LookupTableError).

(** The [Error() string] methods. *)
Definition Error (e : error) : string :=
  match e with
  | ErrString msg => msg
  | ErrWrap msg _ => msg
  | ErrLibrary msg => msg
  | ErrImportFailedValidation e => ImportFailedValidationError_ApiError e
  | ErrImportGeneric e => ImportGenericError_ApiError e
  | ErrLookupTable e => LookupTableError_ApiError e
  end.

(** [fmt.Errorf(prefix + "%w", err)] *)
Definition Errorf_w (prefix : string) (err : error) : error :=
  ErrWrap (prefix +:+ Error err) err.

(** [strconv.Itoa], which is also what the verb [%d] prints for an [int]. *)
Definition Itoa (i : Z) : string := pretty i.

(** [fmt.Errorf(prefix + "%d", i)] *)
Definition Errorf_d (prefix : string) (i : Z) : error :=
  ErrString (prefix +:+ Itoa i).

Inductive result (A : Type) :=
| Ok (a : A)
| Err (e : error).
Arguments Ok {A} a.
Arguments Err {A} e.

(** ** mixpanel.go *)

Definition version : string := "v0.0.1".
Definition usEndpoint : string := "https://api.mixpanel.com".
Definition usDataEndpoint : string := "https://data.mixpanel.com".
Definition euEndpoint : string := "https://api-eu.mixpanel.com".
Definition euDataEndpoint : string := "https://data-eu.mixpanel".
Definition EmptyDistinctID : string := "".
Definition propertyToken : string := "token".
Definition propertyDistinctID : string := "distinct_id".
Definition propertyInsertID : string := "$insert_id".
Definition propertyTime : string := "time".
Definition propertyMpLib : string := "mp_lib".
Definition goLib : string := "go".
Definition propertyLibVersion : string := "$lib_version".

(** [type MpCompression int] with its two named values; Go's [None] is
    spelled [MpNone] here. *)
Definition MpCompression := Z.
Definition MpNone : MpCompression := 0.
Definition Gzip : MpCompression := 1.

Record ServiceAccount := {
  Username : string;
  Secret : string
}.

(** The configuration held by a client.  Its [*http.Client] is reached only
    through [doRequest], which is a parameter of the operations below. *)
Record Mixpanel := {
  apiEndpoint : string;
  dataEndpoint : string;
  projectID : Z;
  token : string;
  apiSecret : string;
  serviceAccount : option ServiceAccount;
  debugHttp : bool
}.

Definition NewClient (projectID : Z) (token secret : string)
    (options : list (Mixpanel → Mixpanel)) : Mixpanel :=
  let mp := {| apiEndpoint := usEndpoint; dataEndpoint := usDataEndpoint;
               projectID := projectID; token := token; apiSecret := secret;
               serviceAccount := None; debugHttp := false |} in
  foldl (λ mp o, o mp) mp options.

Record Event := {
  Name : string;
  Properties : option (gmap string value)
}.

(** [NewEvent] writes into the map it is given (the source leaves a deep
    copy as a to-do), so the caller's map and the event's are one object;
    the returned event carries that object's final content. *)
Definition NewEvent (m : Mixpanel) (name distinctID : string)
    (properties : option (gmap string value)) : run Event :=
  let properties :=
    match properties with
    | None => make_map
    | Some _ => properties
    end in
  properties ← map_assign properties propertyToken (VString (token m));
  properties ← map_assign properties propertyDistinctID (VString distinctID);
  properties ← map_assign properties propertyMpLib (VString goLib);
  properties ← map_assign properties propertyLibVersion (VString version);
  mret {| Name := name; Properties := properties |}.

Definition NewEventFromJson (m : Mixpanel) (json : option (gmap string value))
  : result Event :=
  match assert_string (map_index json "event") with
  | None => Err (ErrString "event name is not a string or is missing")
  | Some name =>
    match assert_map (map_index json "properties") with
    | None => Err (ErrString "event properties is not a map or is missing")
    | Some properties => Ok {| Name := name; Properties := properties |}
    end
  end.

(** [time.Time] as the instant it denotes: whole seconds since the Unix
    epoch and the nanoseconds within that second. *)
Record time_Time := {
  unixSec : Z;
  nsec : Z
}.

(** Two's-complement wrap-around of [int64] arithmetic. *)
Definition wrap64 (z : Z) : Z := (z + 2 ^ 63) mod 2 ^ 64 - 2 ^ 63.

(** [t.UnixMilli()]: [t.unixSec()*1e3 + int64(t.nsec())/1e6] on [int64]. *)
Definition UnixMilli (t : time_Time) : Z :=
  wrap64 (unixSec t * 1000 + nsec t / 1000000).

(** Nanoseconds since the epoch, as a mathematical integer. *)
Definition unix_nanoseconds (t : time_Time) : Z :=
  unixSec t * 1000000000 + nsec t.

Definition AddTime (t : time_Time) (e : Event) : run Event :=
  properties ← map_assign (Properties e) propertyTime (VInt64 (UnixMilli t));
  mret {| Name := Name e; Properties := properties |}.

Definition AddInsertID (insertID : string) (e : Event) : run Event :=
  properties ← map_assign (Properties e) propertyInsertID (VString insertID);
  mret {| Name := Name e; Properties := properties |}.

(** [net.IP] is a byte slice. *)
Definition net_IP := list Z.

Section AddIP.
(** [net.IP.String], the textual form of an address. *)
Variable IP_String : net_IP → string.

End AddIP.

Record IdentityEvent := {
  IdentityEvent_Event : Event
}.

Definition IdentifiedId (i : IdentityEvent) : value :=
  map_index (Properties (IdentityEvent_Event i)) "$identified_id".

Definition SetIdentifiedId (id : string) (i : IdentityEvent) : run IdentityEvent :=
  let e := IdentityEvent_Event i in
  properties ← map_assign (Properties e) "$identified_id" (VString id);
  mret {| IdentityEvent_Event := {| Name := Name e; Properties := properties |} |}.

Definition SetAnonId (id : string) (i : IdentityEvent) : run IdentityEvent :=
  let e := IdentityEvent_Event i in
  properties ← map_assign (Properties e) "$anon_id" (VString id);
  mret {| IdentityEvent_Event := {| Name := Name e; Properties := properties |} |}.

Definition AnonId (id : string) (i : IdentityEvent) : run IdentityEvent :=
  let e := IdentityEvent_Event i in
  properties ← map_assign (Properties e) "$anon_id" (VString id);
  mret {| IdentityEvent_Event := {| Name := Name e; Properties := properties |} |}.

Definition NewIdentityEvent (m : Mixpanel) (distinctID : string)
    (properties : option (gmap string value)) (identifiedId anonId : string)
  : run IdentityEvent :=
  event ← NewEvent m "$identify" distinctID properties;
  let i := {| IdentityEvent_Event := event |} in
  i ← SetIdentifiedId identifiedId i;
  i ← SetAnonId anonId i;
  mret i.

(** ** encoding/json, at the level of documents

    The library is outside the package.  Its text layer (tokens, escapes)
    is not modelled: a document is the tree the text denotes, its strings
    being the byte strings the text denotes.  A number literal is either an
    integer literal or the finite [float64] it is the shortest decimal form
    of.  An object that the text gives several entries under one key is the
    object holding the last of them, which is how the decoder fills a map. *)

(** The byte [a] lies in [lo..hi]. *)
Definition byte_in (lo hi : N) (a : ascii) : bool :=
  ((lo <=? N_of_ascii a) && (N_of_ascii a <=? hi))%N.

(** [utf8.DecodeRuneInString], as far as the encoder uses it: the length of
    the UTF-8 encoding at the head of [s], or [None] where the library
    returns [RuneError] with width 1 (a byte that starts no valid encoding). *)
Definition rune_len (s : string) : option nat :=
  match s with
  | EmptyString => None
  | String a rest =>
    let n := N_of_ascii a in
    if (n <? 128)%N then Some 1%nat
    else if byte_in 194 223 a then
      match rest with
      | String b _ => if byte_in 128 191 b then Some 2%nat else None
      | _ => None
      end
    else if byte_in 224 239 a then
      match rest with
      | String b (String c _) =>
        if byte_in (if (n =? 224)%N then 160 else 128)
                   (if (n =? 237)%N then 159 else 191) b
           && byte_in 128 191 c
        then Some 3%nat else None
      | _ => None
      end
    else if byte_in 240 244 a then
      match rest with
      | String b (String c (String d _)) =>
        if byte_in (if (n =? 240)%N then 144 else 128)
                   (if (n =? 244)%N then 143 else 191) b
           && byte_in 128 191 c && byte_in 128 191 d
        then Some 4%nat else None
      | _ => None
      end
    else None
  end.

(** U+FFFD in UTF-8. *)
Definition replacement_char : string :=
  String (ascii_of_N 239) (String (ascii_of_N 191) (String (ascii_of_N 189) EmptyString)).

(** The string the encoder writes for [s]: every byte that starts no valid
    encoding is replaced by U+FFFD, valid encodings are kept.  [pending]
    counts the bytes still to copy of the encoding being read. *)
Fixpoint coerce_utf8_go (pending : nat) (s : string) : string :=
  match s with
  | EmptyString => EmptyString
  | String a rest =>
    match pending with
    | S k => String a (coerce_utf8_go k rest)
    | O =>
      match rune_len s with
      | Some n => String a (coerce_utf8_go (pred n) rest)
      | None => replacement_char +:+ coerce_utf8_go 0 rest
      end
    end
  end.

Definition coerce_utf8 (s : string) : string := coerce_utf8_go 0 s.

(** A string is valid UTF-8 when the encoder writes it unchanged. *)
Definition utf8_valid (s : string) : bool := String.eqb (coerce_utf8 s) s.

Inductive number :=
| NInt (z : Z)
| NFloat (f : float).

Inductive document :=
| JNull
| JBool (b : bool)
| JNumber (n : number)
| JString (s : string)
| JArray (xs : list document)
| JObject (o : gmap string document).

(** All entries of a map of optional values, if none is missing. *)
Definition map_sequence {A} (m : gmap string (option A)) : option (gmap string A) :=
  if decide (map_Forall (λ _ o, is_Some o) m) then Some (omap id m) else None.

(** The [float64] nearest to an integer (ties to even), which is what
    parsing an integer literal as a [float64] yields. *)
Definition float64_of_Z (z : Z) : float :=
  SF2Prim (binary_normalize prec emax z 0 false).

(** The object a map is written as: the encoder writes the entries in the
    order of their keys and coerces each key on the way out, so of several
    keys that coerce to the same string the greatest one's entry is last. *)
Definition coerce_keys {A} (o : gmap string A) : gmap string A :=
  list_to_map
    ((λ kv, (coerce_utf8 kv.1, kv.2)) <$>
     merge_sort (λ a b : string * A, Is_true (String.leb b.1 a.1)) (map_to_list o)).

(** [json.Marshal] of a dynamic value; [None] is the library's
    [UnsupportedValueError], raised for NaN and the infinities. *)
Fixpoint Marshal (v : value) : option document :=
  match v with
  | VNil | VNilSlice | VNilMap => Some JNull
  | VBool b => Some (JBool b)
  | VString s => Some (JString (coerce_utf8 s))
  | VInt64 n => Some (JNumber (NInt n))
  | VFloat64 f => if is_finite f then Some (JNumber (NFloat f)) else None
  | VSlice xs => JArray <$> mapM Marshal xs
  | VMap m => JObject ∘ coerce_keys <$> map_sequence (Marshal <$> m)
  end.

(** Decoding a document into an [any]. *)
Fixpoint Unmarshal_any (j : document) : value :=
  match j with
  | JNull => VNil
  | JBool b => VBool b
  | JNumber (NInt z) => VFloat64 (float64_of_Z z)
  | JNumber (NFloat f) => VFloat64 f
  | JString s => VString s
  | JArray xs => VSlice (Unmarshal_any <$> xs)
  | JObject o => VMap (Unmarshal_any <$> o)
  end.

(** The value a [map[string]any] field holds, as an [any]. *)
Definition value_of_map (m : option (gmap string value)) : value :=
  match m with
  | Some g => VMap g
  | None => VNilMap
  end.

(** [json.Marshal] of an [Event], following the struct tags
    [json:"event"] and [json:"properties"]. *)
Definition Marshal_Event (e : Event) : option document :=
  properties ← Marshal (value_of_map (Properties e));
  Some (JObject {[ "event" := JString (coerce_utf8 (Name e));
                   "properties" := properties ]}).

(** Decoding a document into a variable of type [map[string]any] that
    starts out nil: an object fills a fresh map, [null] leaves the nil map,
    anything else is an [UnmarshalTypeError]. *)
Definition Unmarshal_map (j : document) : option (option (gmap string value)) :=
  match j with
  | JObject o => Some (Some (Unmarshal_any <$> o))
  | JNull => Some None
  | _ => None
  end.

(** Serialising an event, decoding the text into an untyped map and handing
    that map to [NewEventFromJson]. *)
Definition reparse_Event (m : Mixpanel) (e : Event) : result Event :=
  match Marshal_Event e with
  | None => Err (ErrLibrary "json: unsupported value")
  | Some doc =>
    match Unmarshal_map doc with
    | None => Err (ErrLibrary "json: cannot unmarshal into Go value of type map[string]interface {}")
    | Some raw => NewEventFromJson m raw
    end
  end.



(** ** ingestion.go *)

Definition importURL : string := "/import".
Definition lookupTablesUrl : string := "/lookup-tables".

Definition StatusOK : Z := 200.
Definition StatusBadRequest : Z := 400.
Definition StatusUnauthorized : Z := 401.
Definition StatusRequestEntityTooLarge : Z := 413.
Definition StatusTooManyRequests : Z := 429.
Definition MethodGet : string := "GET".
Definition MethodPost : string := "POST".

Record ImportOptions := {
  Strict : bool;
  Compression : MpCompression
}.

Definition ImportOptionsRecommend : ImportOptions :=
  {| Strict := true; Compression := Gzip |}.

Record ImportSuccess := {
  ImportSuccess_Code : Z;
  ImportSuccess_NumRecordsImported : Z;
  ImportSuccess_Status : value
}.

Record LookupTableResults := {
  LookupTableResults_ID : string;
  LookupTableResults_Name : string
}.

Record LookupTable := {
  LookupTable_Code : Z;
  LookupTable_Status : string;
  Results : list LookupTableResults
}.

(** [url.Values] and its [Add], which appends to the values of the key. *)
Abbreviation url_Values := (gmap string (list string)).

Definition Values_Add (v : url_Values) (key val : string) : url_Values :=
  <[key := default [] (v !! key) ++ [val]]> v.

(** What [json.NewDecoder(body).Decode(&v)] returns for a destination [v]
    of type [T]: the filled value, or the library's error. *)
Inductive decoded (T : Type) :=
| Decoded (v : T)
| DecodeFailed (msg : string).
Arguments Decoded {T} v.
Arguments DecodeFailed {T} msg.

(** A response body is read in one way only: a JSON decoder is run on it
    for the struct type the status code calls for.  The decoder being
    outside the package, a body is modelled by the outcome of that call for
    each of the five destination types. *)
Record ResponseBody := {
  Decode_ImportSuccess : decoded ImportSuccess;
  Decode_ImportFailedValidationError : decoded ImportFailedValidationError;
  Decode_ImportGenericError : decoded ImportGenericError;
  Decode_LookupTable : decoded LookupTable;
  Decode_LookupTableError : decoded LookupTableError
}.

Record Response := {
  StatusCode : Z;
  Body : ResponseBody
}.

(** Modelled from the spec: the request options [addQueryParams],
    [acceptJson], [acceptPlainText] and [useServiceAccount] are built by
    helpers of the package that are not in the two files.  The spec gives
    each its contribution to the request (the query parameters; the Accept
    header; Basic auth when a service account is configured); an option is
    recorded here as the helper that built it and what it was built from. *)
Inductive httpOption :=
| addQueryParams (query : url_Values)
| acceptJson
| acceptPlainText
| useServiceAccount (account : option ServiceAccount).

(** The arguments of one call of [doRequest]. *)
Record doRequestArgs := {
  arg_method : string;
  arg_url : string;
  arg_payload : option (list Event);
  arg_compression : MpCompression;
  arg_options : list httpOption
}.

(** The query parameters among the options of a call. *)
Definition query_params (a : doRequestArgs) : list url_Values :=
  omap (λ o, match o with addQueryParams q => Some q | _ => None end) (arg_options a).

(** Lines 113-129 of [Import]: the query values and the call they go into. *)
Definition Import_values (m : Mixpanel) (options : ImportOptions) : url_Values :=
  let values : url_Values := ∅ in
  let values :=
    if Strict options then Values_Add values "strict" "1"
    else Values_Add values "strict" "0" in
  let values := Values_Add values "project_id" (Itoa (projectID m)) in
  let values := Values_Add values "verbose" "1" in
  values.

Definition Import_request (m : Mixpanel) (events : list Event)
    (options : ImportOptions) : doRequestArgs :=
  {| arg_method := MethodPost;
     arg_url := apiEndpoint m +:+ importURL;
     arg_payload := Some events;
     arg_compression := Compression options;
     arg_options := [addQueryParams (Import_values m options); acceptJson;
                     useServiceAccount (serviceAccount m)] |}.

(** Lines 135-156 of [Import]: the switch on the status code. *)
Definition Import_response (httpResponse : Response) : result ImportSuccess :=
  let code := StatusCode httpResponse in
  if code =? StatusOK then
    match Decode_ImportSuccess (Body httpResponse) with
    | DecodeFailed msg => Err (Errorf_w "failed to parse response body:" (ErrLibrary msg))
    | Decoded s => Ok s
    end
  else if code =? StatusBadRequest then
    match Decode_ImportFailedValidationError (Body httpResponse) with
    | DecodeFailed msg => Err (Errorf_w "failed to json decode response body: " (ErrLibrary msg))
    | Decoded g => Err (ErrImportFailedValidation g)
    end
  else if (code =? StatusUnauthorized) || (code =? StatusRequestEntityTooLarge)
          || (code =? StatusTooManyRequests) then
    match Decode_ImportGenericError (Body httpResponse) with
    | DecodeFailed msg => Err (Errorf_w "failed to json decode response body: " (ErrLibrary msg))
    | Decoded g => Err (ErrImportGeneric g)
    end
  else Err (Errorf_d "unexpected status code: " code).

Definition ListLookupTables_values (m : Mixpanel) : url_Values :=
  let query : url_Values := ∅ in
  Values_Add query "project_id" (Itoa (projectID m)).

Definition ListLookupTables_request (m : Mixpanel) : doRequestArgs :=
  {| arg_method := MethodGet;
     arg_url := apiEndpoint m +:+ lookupTablesUrl;
     arg_payload := None;
     arg_compression := MpNone;
     arg_options := [addQueryParams (ListLookupTables_values m); acceptJson] |}.

Definition ListLookupTables_response (httpResponse : Response) : result LookupTable :=
  let code := StatusCode httpResponse in
  if code =? StatusOK then
    match Decode_LookupTable (Body httpResponse) with
    | DecodeFailed msg => Err (Errorf_w "failed to decode results: " (ErrLibrary msg))
    | Decoded r => Ok r
    end
  else if code =? StatusUnauthorized then
    match Decode_LookupTableError (Body httpResponse) with
    | DecodeFailed msg => Err (Errorf_w "failed to decode error response:" (ErrLibrary msg))
    | Decoded e => Err (ErrLookupTable e)
    end
  else Err (Errorf_d "unexpected status code: " code).

Section Ingestion.
(** [doRequest] composes and sends the request; it is defined in a file of
    the package that is not at hand and is a parameter here. *)
Variable doRequest : Mixpanel → doRequestArgs → result Response.

Definition Import (m : Mixpanel) (events : list Event) (options : ImportOptions)
  : result ImportSuccess :=
  match doRequest m (Import_request m events options) with
  | Err err => Err (Errorf_w "failed to import:" err)
  | Ok httpResponse => Import_response httpResponse
  end.

Definition ListLookupTables (m : Mixpanel) : result LookupTable :=
  match doRequest m (ListLookupTables_request m) with
  | Err err => Err (ErrString ("failed to call list lookup tables: " +:+ Error err))
  | Ok httpResponse => ListLookupTables_response httpResponse
  end.
End Ingestion.

(** An error value the API itself reported, as opposed to one made by the
    client while handling the exchange. *)
Definition is_ApiError (e : error) : bool :=
  match e with
  | ErrImportFailedValidation _ | ErrImportGeneric _ | ErrLookupTable _ => true
  | _ => false
  end.

(** [errors.As] along the chain of wrapped errors. *)
Fixpoint ApiError_in_chain (e : error) : bool :=
  match e with
  | ErrWrap _ err => ApiError_in_chain err
  | _ => is_ApiError e
  end.

(** ** Vocabulary of the statements *)

(** The keys [NewEvent] writes. *)
Definition reserved_keys : gset string :=
  {[ propertyToken; propertyDistinctID; propertyMpLib; propertyLibVersion ]}.



(** The kinds of [ApiError] in the error taxonomy of the specification.
    The package declares no such type; the kinds serve to state what a
    caller could or could not read off a returned error. *)
Inductive ApiErrorKind :=
| validation
| unauthorized
| payload_too_large
| rate_limited.

(** The status codes on which [Import] and [ListLookupTables] run the JSON
    decoder, with the decoder failing on the body with error [msg]. *)
Definition Import_decode_fails (r : Response) (msg : string) : Prop :=
  (StatusCode r = 200 ∧ Decode_ImportSuccess (Body r) = DecodeFailed msg) ∨
  (StatusCode r = 400 ∧
   Decode_ImportFailedValidationError (Body r) = DecodeFailed msg) ∨
  ((StatusCode r = 401 ∨ StatusCode r = 413 ∨ StatusCode r = 429) ∧
   Decode_ImportGenericError (Body r) = DecodeFailed msg).

Definition ListLookupTables_decode_fails (r : Response) (msg : string) : Prop :=
  (StatusCode r = 200 ∧ Decode_LookupTable (Body r) = DecodeFailed msg) ∨
  (StatusCode r = 401 ∧ Decode_LookupTableError (Body r) = DecodeFailed msg).

(** ** Sample inputs *)

Definition sample_client : Mixpanel := NewClient 117 "project-token" "api-secret" [].

(** The untyped map decoded from [{"event":"signup","properties":{}}]. *)
Definition sample_raw_event : option (gmap string value) :=
  Some {[ "event" := VString "signup"; "properties" := VMap ∅ ]}.

(** The zero value [Event{Name: "signup"}], whose map is nil. *)
Definition sample_zero_event : Event := {| Name := "signup"; Properties := None |}.

(** 2023-11-14T22:13:20.123456789Z *)
Definition sample_time : time_Time := {| unixSec := 1700000000; nsec := 123456789 |}.


(** The event [AddTime] leaves behind on an empty, non-nil map. *)
Definition sample_timed_event : Event :=
  {| Name := "signup"; Properties := Some {[ "time" := VInt64 1700000000123 ]} |}.


(** A transport stub that answers every request with the same response. *)
Definition stub_transport (r : Response) : Mixpanel → doRequestArgs → result Response :=
  λ _ _, Ok r.

(** The body [{"code":401,"error":"Unauthorized","status":"Error"}] as the
    decoder reads it into each destination type. *)
Definition sample_error_body : ResponseBody :=
  {| Decode_ImportSuccess :=
       Decoded {| ImportSuccess_Code := 401; ImportSuccess_NumRecordsImported := 0;
                  ImportSuccess_Status := VString "Error" |};
     Decode_ImportFailedValidationError :=
       Decoded {| ImportFailedValidationError_Code := 401;
                  ImportFailedValidationError_ApiError := "Unauthorized";
                  ImportFailedValidationError_Status := VString "Error";
                  ImportFailedValidationError_NumRecordsImported := 0;
                  FailedImportRecords := [] |};
     Decode_ImportGenericError :=
       Decoded {| ImportGenericError_Code := 401;
                  ImportGenericError_ApiError := "Unauthorized";
                  ImportGenericError_Status := VString "Error" |};
     Decode_LookupTable :=
       Decoded {| LookupTable_Code := 401; LookupTable_Status := "Error"; Results := [] |};
     Decode_LookupTableError :=
       Decoded {| LookupTableError_Code := 401;
                  LookupTableError_ApiError := "Unauthorized";
                  LookupTableError_Status := VString "Error" |} |}.

Definition sample_generic_error : ImportGenericError :=
  {| ImportGenericError_Code := 401;
     ImportGenericError_ApiError := "Unauthorized";
     ImportGenericError_Status := VString "Error" |}.

(** The body of a validation failure with one rejected record:
    [{"code":400,"error":"some data points in the request failed validation",
      "failed_records":[{"index":0,"insert_id":7,"field":"properties.time",
      "message":"must be specified"}],"num_records_imported":1,
      "status":"Bad Request"}]. *)
Definition sample_validation_error : ImportFailedValidationError :=
  {| ImportFailedValidationError_Code := 400;
     ImportFailedValidationError_ApiError :=
       "some data points in the request failed validation";
     ImportFailedValidationError_Status := VString "Bad Request";
     ImportFailedValidationError_NumRecordsImported := 1;
     FailedImportRecords :=
       [ {| ImportFailedRecords_Index := 0; ImportFailedRecords_InsertID := 7;
            ImportFailedRecords_Field := "properties.time";
            ImportFailedRecords_Message := "must be specified" |} ] |}.

Definition sample_validation_body : ResponseBody :=
  {| Decode_ImportSuccess :=
       Decoded {| ImportSuccess_Code := 400; ImportSuccess_NumRecordsImported := 1;
                  ImportSuccess_Status := VString "Bad Request" |};
     Decode_ImportFailedValidationError := Decoded sample_validation_error;
     Decode_ImportGenericError :=
       Decoded {| ImportGenericError_Code := 400;
                  ImportGenericError_ApiError :=
                    "some data points in the request failed validation";
                  ImportGenericError_Status := VString "Bad Request" |};
     Decode_LookupTable :=
       Decoded {| LookupTable_Code := 400; LookupTable_Status := "Bad Request";
                  Results := [] |};
     Decode_LookupTableError :=
       Decoded {| LookupTableError_Code := 400;
                  LookupTableError_ApiError :=
                    "some data points in the request failed validation";
                  LookupTableError_Status := VString "Bad Request" |} |}.

(** A body that is not JSON (an HTML page from a proxy, say): the decoder
    fails whatever the destination. *)
Definition sample_html_error : string :=
  "invalid character '<' looking for beginning of value".

Definition sample_html_body : ResponseBody :=
  {| Decode_ImportSuccess := DecodeFailed sample_html_error;
     Decode_ImportFailedValidationError := DecodeFailed sample_html_error;
     Decode_ImportGenericError := DecodeFailed sample_html_error;
     Decode_LookupTable := DecodeFailed sample_html_error;
     Decode_LookupTableError := DecodeFailed sample_html_error |}.

(** The body [{"code":0,"num_records_imported":2,"status":1}] of a
    successful import.  Only [LookupTable], whose [Status] is a string,
    cannot take it. *)
Definition sample_success_body : ResponseBody :=
  {| Decode_ImportSuccess :=
       Decoded {| ImportSuccess_Code := 0; ImportSuccess_NumRecordsImported := 2;
                  ImportSuccess_Status := VFloat64 1 |};
     Decode_ImportFailedValidationError :=
       Decoded {| ImportFailedValidationError_Code := 0;
                  ImportFailedValidationError_ApiError := "";
                  ImportFailedValidationError_Status := VFloat64 1;
                  ImportFailedValidationError_NumRecordsImported := 2;
                  FailedImportRecords := [] |};
     Decode_ImportGenericError :=
       Decoded {| ImportGenericError_Code := 0; ImportGenericError_ApiError := "";
                  ImportGenericError_Status := VFloat64 1 |};
     Decode_LookupTable :=
       DecodeFailed
         "json: cannot unmarshal number into Go struct field LookupTable.status of type string";
     Decode_LookupTableError :=
       Decoded {| LookupTableError_Code := 0; LookupTableError_ApiError := "";
                  LookupTableError_Status := VFloat64 1 |} |}.

(** * The rest of the two files *)

(** ** mixpanel.go: client options

    [type Options func(mixpanel *Mixpanel)]: an option is the update it
    makes to the client under construction.  [HttpClient] replaces the
    [*http.Client], which the model reaches only through [doRequest]; it
    writes no field of [Mixpanel] as modelled and is left out. *)

Definition EuResidency : Mixpanel → Mixpanel := λ mixpanel,
  {| apiEndpoint := euEndpoint; dataEndpoint := euDataEndpoint;
     projectID := projectID mixpanel; token := token mixpanel;
     apiSecret := apiSecret mixpanel; serviceAccount := serviceAccount mixpanel;
     debugHttp := debugHttp mixpanel |}.

Definition ProxyApiLocation (proxy : string) : Mixpanel → Mixpanel := λ mixpanel,
  {| apiEndpoint := proxy; dataEndpoint := dataEndpoint mixpanel;
     projectID := projectID mixpanel; token := token mixpanel;
     apiSecret := apiSecret mixpanel; serviceAccount := serviceAccount mixpanel;
     debugHttp := debugHttp mixpanel |}.

Definition ProxyDataLocation (proxy : string) : Mixpanel → Mixpanel := λ mixpanel,
  {| apiEndpoint := apiEndpoint mixpanel; dataEndpoint := proxy;
     projectID := projectID mixpanel; token := token mixpanel;
     apiSecret := apiSecret mixpanel; serviceAccount := serviceAccount mixpanel;
     debugHttp := debugHttp mixpanel |}.

Definition SetServiceAccount (username secret : string) : Mixpanel → Mixpanel :=
  λ mixpanel,
  {| apiEndpoint := apiEndpoint mixpanel; dataEndpoint := dataEndpoint mixpanel;
     projectID := projectID mixpanel; token := token mixpanel;
     apiSecret := apiSecret mixpanel;
     serviceAccount := Some {| Username := username; Secret := secret |};
     debugHttp := debugHttp mixpanel |}.

Definition DebugHttpCalls : Mixpanel → Mixpanel := λ mixpanel,
  {| apiEndpoint := apiEndpoint mixpanel; dataEndpoint := dataEndpoint mixpanel;
     projectID := projectID mixpanel; token := token mixpanel;
     apiSecret := apiSecret mixpanel; serviceAccount := serviceAccount mixpanel;
     debugHttp := true |}.

(** The options above that leave the service account alone, and all of
    them. *)
Inductive plain_option : (Mixpanel → Mixpanel) → Prop :=
| plain_EuResidency : plain_option EuResidency
| plain_ProxyApiLocation proxy : plain_option (ProxyApiLocation proxy)
| plain_ProxyDataLocation proxy : plain_option (ProxyDataLocation proxy)
| plain_DebugHttpCalls : plain_option DebugHttpCalls.

Inductive client_option : (Mixpanel → Mixpanel) → Prop :=
| client_plain o : plain_option o → client_option o
| client_SetServiceAccount username secret :
    client_option (SetServiceAccount username secret).

(** [errors.Unwrap] *)
Definition Unwrap (e : error) : option error :=
  match e with
  | ErrWrap _ err => Some err
  | _ => None
  end.

(** ** ingestion.go: the track, people and group operations *)

Definition trackURL : string := "/track".
Definition peopleSetURL : string := "/engage#profile-set".
Definition peopleSetOnceURL : string := "/engage#profile-set-once".
Definition peopleIncrementUrl : string := "/engage#profile-numerical-add".
Definition peopleUnionToListUrl : string := "/engage#profile-union".
Definition peopleAppendToListUrl : string := "/engage#profile-list-append".
Definition peopleRemoveFromListUrl : string := "/engage#profile-list-remove".
Definition peopleDeletePropertyUrl : string := "/engage#profile-unset".
Definition peopleDeleteProfileUrl : string := "/engage#profile-delete".
Definition groupSetUrl : string := "/groups#group-set".
Definition groupsSetOnceUrl : string := "/groups#group-set-once".
Definition groupsDeletePropertyUrl : string := "/groups#group-unset".
Definition groupsRemoveFromListPropertyUrl : string := "/groups#group-remove-from-list".
Definition groupsUnionListPropertyUrl : string := "/groups#group-union".
Definition groupsDeleteGroupUrl : string := "/groups#group-delete".

(** [strconv.FormatBool] *)
Definition FormatBool (b : bool) : string := if b then "true" else "false".

Definition Track_values : gmap string (list string) :=
  let query : gmap string (list string) := ∅ in
  Values_Add query "verbose" "1".

Definition Track_request (m : Mixpanel) (events : list Event) : doRequestArgs :=
  {| arg_method := MethodPost;
     arg_url := apiEndpoint m +:+ trackURL;
     arg_payload := Some events;
     arg_compression := MpNone;
     arg_options := [addQueryParams Track_values; acceptPlainText] |}.

Record peopleOptions := {
  peopleOptions_IP : string;
  Latitude : float;
  Longitude : float
}.

(** [&peopleOptions{}] *)
Definition peopleOptions_zero : peopleOptions :=
  {| peopleOptions_IP := ""; Latitude := 0; Longitude := 0 |}.

Definition SetPeopleLatLong (lat long : float) : peopleOptions → peopleOptions := λ p,
  {| peopleOptions_IP := peopleOptions_IP p; Latitude := lat; Longitude := long |}.

Record peopleSetPayload := {
  peopleSetPayload_Token : string;
  peopleSetPayload_DistinctID : string;
  peopleSetPayload_Set : option (gmap string value);
  peopleSetPayload_peopleOptions : peopleOptions
}.

Record peopleSetOncePayload := {
  peopleSetOncePayload_Token : string;
  peopleSetOncePayload_DistinctID : string;
  peopleSetOncePayload_SetOnce : option (gmap string value);
  peopleSetOncePayload_peopleOptions : peopleOptions
}.

Record peopleNumericalAddPayload := {
  peopleNumericalAddPayload_Token : string;
  peopleNumericalAddPayload_DistinctID : string;
  peopleNumericalAddPayload_Add : option (gmap string Z)
}.

Record peopleUnionPayload := {
  peopleUnionPayload_Token : string;
  peopleUnionPayload_DistinctID : string;
  peopleUnionPayload_Union : option (gmap string value)
}.

Record peopleAppendListPayload := {
  peopleAppendListPayload_Token : string;
  peopleAppendListPayload_DistinctID : string;
  peopleAppendListPayload_Append : option (gmap string string)
}.

Record peopleListRemovePayload := {
  peopleListRemovePayload_Token : string;
  peopleListRemovePayload_DistinctID : string;
  peopleListRemovePayload_Remove : option (gmap string string)
}.

Record peopleDeletePropertyPayload := {
  peopleDeletePropertyPayload_Token : string;
  peopleDeletePropertyPayload_DistinctID : string;
  peopleDeletePropertyPayload_Unset : list string
}.

Record peopleDeleteProfilePayload := {
  peopleDeleteProfilePayload_Token : string;
  peopleDeleteProfilePayload_DistinctID : string;
  peopleDeleteProfilePayload_Delete : string;
  peopleDeleteProfilePayload_IgnoreAlias : string
}.

Record groupUpdatePropertyPayload := {
  groupUpdatePropertyPayload_Token : string;
  groupUpdatePropertyPayload_GroupKey : string;
  groupUpdatePropertyPayload_GroupId : string;
  groupUpdatePropertyPayload_Set : option (gmap string string)
}.

Record groupSetOncePropertyPayload := {
  groupSetOncePropertyPayload_Token : string;
  groupSetOncePropertyPayload_GroupKey : string;
  groupSetOncePropertyPayload_GroupId : string;
  groupSetOncePropertyPayload_SetOnce : option (gmap string value)
}.

Record groupDeletePropertyPayload := {
  groupDeletePropertyPayload_Token : string;
  groupDeletePropertyPayload_GroupKey : string;
  groupDeletePropertyPayload_GroupId : string;
  groupDeletePropertyPayload_Unset : list string
}.

Record groupRemoveListPropertyPayload := {
  groupRemoveListPropertyPayload_Token : string;
  groupRemoveListPropertyPayload_GroupKey : string;
  groupRemoveListPropertyPayload_GroupId : string;
  groupRemoveListPropertyPayload_Remove : option (gmap string string)
}.

Record groupUnionListPropertyPayload := {
  groupUnionListPropertyPayload_Token : string;
  groupUnionListPropertyPayload_GroupKey : string;
  groupUnionListPropertyPayload_GroupId : string;
  groupUnionListPropertyPayload_Union : option (gmap string value)
}.

Record groupDeletePayload := {
  groupDeletePayload_Token : string;
  groupDeletePayload_GroupKey : string;
  groupDeletePayload_GroupId : string;
  groupDeletePayload_Delete : string
}.

(** What [doPeopleRequest] receives as its [any]: a slice of one of the
    payload types. *)
Inductive payload :=
| PeopleSetPayload (p : peopleSetPayload)
| PeopleSetOncePayload (p : peopleSetOncePayload)
| PeopleNumericalAddPayload (p : peopleNumericalAddPayload)
| PeopleUnionPayload (p : peopleUnionPayload)
| PeopleAppendListPayload (p : peopleAppendListPayload)
| PeopleListRemovePayload (p : peopleListRemovePayload)
| PeopleDeletePropertyPayload (p : peopleDeletePropertyPayload)
| PeopleDeleteProfilePayload (p : peopleDeleteProfilePayload)
| GroupUpdatePropertyPayload (p : groupUpdatePropertyPayload)
| GroupSetOncePropertyPayload (p : groupSetOncePropertyPayload)
| GroupDeletePropertyPayload (p : groupDeletePropertyPayload)
| GroupRemoveListPropertyPayload (p : groupRemoveListPropertyPayload)
| GroupUnionListPropertyPayload (p : groupUnionListPropertyPayload)
| GroupDeletePayload (p : groupDeletePayload).

Section Operations.
(** [doRequest], [returnVerboseError] and [doPeopleRequest] are defined in a
    file of the package that is not at hand; an [error] that may be nil is
    an [option error]. *)
Variable doRequest : Mixpanel → doRequestArgs → result Response.
Variable returnVerboseError : Response → option error.
Variable doPeopleRequest : Mixpanel → list payload → string → option error.
(** [net.IP.String] *)
Variable IP_String : net_IP → string.

Definition Track (m : Mixpanel) (events : list Event) : option error :=
  match doRequest m (Track_request m events) with
  | Err err => Some (Errorf_w "failed to track event: " err)
  | Ok response => returnVerboseError response
  end.

Definition SetPeopleIP (ip : net_IP) : peopleOptions → peopleOptions := λ p,
  {| peopleOptions_IP := IP_String ip; Latitude := Latitude p;
     Longitude := Longitude p |}.

Definition PeopleSet (m : Mixpanel) (distinctID : string)
    (properties : option (gmap string value))
    (options : list (peopleOptions → peopleOptions)) : option error :=
  let payload :=
    {| peopleSetPayload_Token := token m;
       peopleSetPayload_DistinctID := distinctID;
       peopleSetPayload_Set := properties;
       peopleSetPayload_peopleOptions := foldl (λ p o, o p) peopleOptions_zero options |} in
  doPeopleRequest m [PeopleSetPayload payload] peopleSetURL.

Definition PeopleSetOnce (m : Mixpanel) (distinctID : string)
    (properties : option (gmap string value))
    (options : list (peopleOptions → peopleOptions)) : option error :=
  let payload :=
    {| peopleSetOncePayload_Token := token m;
       peopleSetOncePayload_DistinctID := distinctID;
       peopleSetOncePayload_SetOnce := properties;
       peopleSetOncePayload_peopleOptions :=
         foldl (λ p o, o p) peopleOptions_zero options |} in
  doPeopleRequest m [PeopleSetOncePayload payload] peopleSetOnceURL.

Definition PeopleIncrement (m : Mixpanel) (distinctID : string)
    (add : option (gmap string Z)) : option error :=
  let payload :=
    [ PeopleNumericalAddPayload
        {| peopleNumericalAddPayload_Token := token m;
           peopleNumericalAddPayload_DistinctID := distinctID;
           peopleNumericalAddPayload_Add := add |} ] in
  doPeopleRequest m payload peopleIncrementUrl.

Definition PeopleUnionProperty (m : Mixpanel) (distinctID : string)
    (union : option (gmap string value)) : option error :=
  let payload :=
    [ PeopleUnionPayload
        {| peopleUnionPayload_Token := token m;
           peopleUnionPayload_DistinctID := distinctID;
           peopleUnionPayload_Union := union |} ] in
  doPeopleRequest m payload peopleUnionToListUrl.

Definition PeopleAppendListProperty (m : Mixpanel) (distinctID : string)
    (append : option (gmap string string)) : option error :=
  let payload :=
    [ PeopleAppendListPayload
        {| peopleAppendListPayload_Token := token m;
           peopleAppendListPayload_DistinctID := distinctID;
           peopleAppendListPayload_Append := append |} ] in
  doPeopleRequest m payload peopleAppendToListUrl.

Definition PeopleRemoveListProperty (m : Mixpanel) (distinctID : string)
    (remove : option (gmap string string)) : option error :=
  let payload :=
    [ PeopleListRemovePayload
        {| peopleListRemovePayload_Token := token m;
           peopleListRemovePayload_DistinctID := distinctID;
           peopleListRemovePayload_Remove := remove |} ] in
  doPeopleRequest m payload peopleRemoveFromListUrl.

Definition PeopleDeleteProperty (m : Mixpanel) (distinctID : string)
    (unset : list string) : option error :=
  let payload :=
    [ PeopleDeletePropertyPayload
        {| peopleDeletePropertyPayload_Token := token m;
           peopleDeletePropertyPayload_DistinctID := distinctID;
           peopleDeletePropertyPayload_Unset := unset |} ] in
  doPeopleRequest m payload peopleDeletePropertyUrl.

Definition PeopleDeleteProfile (m : Mixpanel) (distinctID : string)
    (ignoreAlias : bool) : option error :=
  let payload :=
    [ PeopleDeleteProfilePayload
        {| peopleDeleteProfilePayload_Token := token m;
           peopleDeleteProfilePayload_DistinctID := distinctID;
           peopleDeleteProfilePayload_Delete := "null";
           peopleDeleteProfilePayload_IgnoreAlias := FormatBool ignoreAlias |} ] in
  doPeopleRequest m payload peopleDeleteProfileUrl.

Definition GroupUpdateProperty (m : Mixpanel) (groupKey groupID : string)
    (set : option (gmap string string)) : option error :=
  let payload :=
    [ GroupUpdatePropertyPayload
        {| groupUpdatePropertyPayload_Token := token m;
           groupUpdatePropertyPayload_GroupKey := groupKey;
           groupUpdatePropertyPayload_GroupId := groupID;
           groupUpdatePropertyPayload_Set := set |} ] in
  doPeopleRequest m payload groupSetUrl.

Definition GroupSetOnce (m : Mixpanel) (groupKey groupID : string)
    (set : option (gmap string value)) : option error :=
  let payload :=
    [ GroupSetOncePropertyPayload
        {| groupSetOncePropertyPayload_Token := token m;
           groupSetOncePropertyPayload_GroupKey := groupKey;
           groupSetOncePropertyPayload_GroupId := groupID;
           groupSetOncePropertyPayload_SetOnce := set |} ] in
  doPeopleRequest m payload groupsSetOnceUrl.

Definition GroupDeleteProperty (m : Mixpanel) (groupKey groupID : string)
    (unset : list string) : option error :=
  let payload :=
    [ GroupDeletePropertyPayload
        {| groupDeletePropertyPayload_Token := token m;
           groupDeletePropertyPayload_GroupKey := groupKey;
           groupDeletePropertyPayload_GroupId := groupID;
           groupDeletePropertyPayload_Unset := unset |} ] in
  doPeopleRequest m payload groupsDeletePropertyUrl.

Definition GroupRemoveListProperty (m : Mixpanel) (groupKey groupID : string)
    (remove : option (gmap string string)) : option error :=
  let payload :=
    [ GroupRemoveListPropertyPayload
        {| groupRemoveListPropertyPayload_Token := token m;
           groupRemoveListPropertyPayload_GroupKey := groupKey;
           groupRemoveListPropertyPayload_GroupId := groupID;
           groupRemoveListPropertyPayload_Remove := remove |} ] in
  doPeopleRequest m payload groupsRemoveFromListPropertyUrl.

Definition GroupUnionListProperty (m : Mixpanel) (groupKey groupID : string)
    (union : option (gmap string value)) : option error :=
  let payload :=
    [ GroupUnionListPropertyPayload
        {| groupUnionListPropertyPayload_Token := token m;
           groupUnionListPropertyPayload_GroupKey := groupKey;
           groupUnionListPropertyPayload_GroupId := groupID;
           groupUnionListPropertyPayload_Union := union |} ] in
  doPeopleRequest m payload groupsUnionListPropertyUrl.

Definition GroupDelete (m : Mixpanel) (groupKey groupID : string) : option error :=
  let payload :=
    [ GroupDeletePayload
        {| groupDeletePayload_Token := token m;
           groupDeletePayload_GroupKey := groupKey;
           groupDeletePayload_GroupId := groupID;
           groupDeletePayload_Delete := "null" |} ] in
  doPeopleRequest m payload groupsDeleteGroupUrl.
End Operations.

(** ** Vocabulary of the further statements *)

(** The [$token] a payload carries. *)
Definition payload_Token (p : payload) : string :=
  match p with
  | PeopleSetPayload p => peopleSetPayload_Token p
  | PeopleSetOncePayload p => peopleSetOncePayload_Token p
  | PeopleNumericalAddPayload p => peopleNumericalAddPayload_Token p
  | PeopleUnionPayload p => peopleUnionPayload_Token p
  | PeopleAppendListPayload p => peopleAppendListPayload_Token p
  | PeopleListRemovePayload p => peopleListRemovePayload_Token p
  | PeopleDeletePropertyPayload p => peopleDeletePropertyPayload_Token p
  | PeopleDeleteProfilePayload p => peopleDeleteProfilePayload_Token p
  | GroupUpdatePropertyPayload p => groupUpdatePropertyPayload_Token p
  | GroupSetOncePropertyPayload p => groupSetOncePropertyPayload_Token p
  | GroupDeletePropertyPayload p => groupDeletePropertyPayload_Token p
  | GroupRemoveListPropertyPayload p => groupRemoveListPropertyPayload_Token p
  | GroupUnionListPropertyPayload p => groupUnionListPropertyPayload_Token p
  | GroupDeletePayload p => groupDeletePayload_Token p
  end.

(** Whom a payload is about: the [$distinct_id] of a profile, or the
    [$group_key] and [$group_id] of a group. *)
Inductive subject :=
| Profile (distinctID : string)
| Group (groupKey groupID : string).

Definition payload_subject (p : payload) : subject :=
  match p with
  | PeopleSetPayload p => Profile (peopleSetPayload_DistinctID p)
  | PeopleSetOncePayload p => Profile (peopleSetOncePayload_DistinctID p)
  | PeopleNumericalAddPayload p => Profile (peopleNumericalAddPayload_DistinctID p)
  | PeopleUnionPayload p => Profile (peopleUnionPayload_DistinctID p)
  | PeopleAppendListPayload p => Profile (peopleAppendListPayload_DistinctID p)
  | PeopleListRemovePayload p => Profile (peopleListRemovePayload_DistinctID p)
  | PeopleDeletePropertyPayload p => Profile (peopleDeletePropertyPayload_DistinctID p)
  | PeopleDeleteProfilePayload p => Profile (peopleDeleteProfilePayload_DistinctID p)
  | GroupUpdatePropertyPayload p =>
      Group (groupUpdatePropertyPayload_GroupKey p) (groupUpdatePropertyPayload_GroupId p)
  | GroupSetOncePropertyPayload p =>
      Group (groupSetOncePropertyPayload_GroupKey p) (groupSetOncePropertyPayload_GroupId p)
  | GroupDeletePropertyPayload p =>
      Group (groupDeletePropertyPayload_GroupKey p) (groupDeletePropertyPayload_GroupId p)
  | GroupRemoveListPropertyPayload p =>
      Group (groupRemoveListPropertyPayload_GroupKey p)
            (groupRemoveListPropertyPayload_GroupId p)
  | GroupUnionListPropertyPayload p =>
      Group (groupUnionListPropertyPayload_GroupKey p)
            (groupUnionListPropertyPayload_GroupId p)
  | GroupDeletePayload p =>
      Group (groupDeletePayload_GroupKey p) (groupDeletePayload_GroupId p)
  end.

(** A call of [doPeopleRequest] that sends one record, under the client's
    token, about the subject [s], to the path [url]: whatever the
    transport, the operation [op] returns what it returns on that record. *)
Definition sends_one_record
    (op : (Mixpanel → list payload → string → option error) → option error)
    (m : Mixpanel) (s : subject) (url : string) : Prop :=
  ∃ p : payload,
    payload_Token p = token m ∧ payload_subject p = s ∧
    ∀ doPeopleRequest, op doPeopleRequest = doPeopleRequest m [p] url.

(** A transport stub that fails every request with the same error. *)
Definition failing_transport (err : error) : Mixpanel → doRequestArgs → result Response :=
  λ _ _, Err err.

(** The error [net/http] returns when the host refuses the connection. *)
Definition sample_transport_error : error :=
  ErrLibrary "dial tcp 127.0.0.1:443: connect: connection refused".

(** The service accounts among the options of a call. *)
Definition accounts_of (a : doRequestArgs) : list (option ServiceAccount) :=
  omap (λ o, match o with useServiceAccount acc => Some acc | _ => None end)
       (arg_options a).
(** ** Properties of mixpanel.go *)


Lemma run_bind_Panic {A B} (f : A → run B) msg : @Panic A msg ≫= f = Panic msg.
Proof. reflexivity. Qed.

Lemma map_assign_Some g k v : map_assign (Some g) k v = Ret (Some (<[k := v]> g)).
Proof. reflexivity. Qed.

Lemma NewEvent_unfold m name distinctID properties :
  NewEvent m name distinctID properties =
  Ret {| Name := name;
         Properties := Some (<[propertyLibVersion := VString version]>
                            (<[propertyMpLib := VString goLib]>
                            (<[propertyDistinctID := VString distinctID]>
                            (<[propertyToken := VString (token m)]>
                            (default ∅ properties))))) |}.
Proof. destruct properties; reflexivity. Qed.

(** C3. Whatever name, distinct id and properties map (nil or not, with or
    without entries under the reserved keys) [NewEvent] is given, it returns
    without a panic an event of that name whose properties hold the client's
    token, the distinct id, the library tag and the library version under
    the four reserved keys; every other key is as the caller supplied it. *)
Theorem NewEvent_reserved_properties (m : Mixpanel) (name distinctID : string)
    (properties : option (gmap string value)) :
  ∃ p : gmap string value,
    NewEvent m name distinctID properties = Ret {| Name := name; Properties := Some p |} ∧
    p !! propertyToken = Some (VString (token m)) ∧
    p !! propertyDistinctID = Some (VString distinctID) ∧
    p !! propertyMpLib = Some (VString goLib) ∧
    p !! propertyLibVersion = Some (VString version) ∧
    ∀ k, k ∉ reserved_keys → p !! k = default ∅ properties !! k.
Proof.
  eexists. split; [apply NewEvent_unfold|].
  repeat split.
  - by simplify_map_eq.
  - by simplify_map_eq.
  - by simplify_map_eq.
  - by simplify_map_eq.
  - intros k Hk. unfold reserved_keys in Hk.
    rewrite !lookup_insert_ne; [done|set_solver..].
Qed.

Example NewEvent_overrides_caller_token :
  NewEvent sample_client "signup" "user-1"
    (Some {[ "token" := VString "forged"; "plan" := VString "free" ]}) =
  Ret {| Name := "signup";
         Properties := Some {[ "token" := VString "project-token";
                               "distinct_id" := VString "user-1";
                               "mp_lib" := VString "go";
                               "$lib_version" := VString "v0.0.1";
                               "plan" := VString "free" ]} |}.
Proof. vm_compute. reflexivity. Qed.

(** C10. With a nil properties map [NewEvent] does not panic: it returns an
    event over a fresh map whose keys are exactly [token], [distinct_id],
    [mp_lib] and [$lib_version], holding the client's token, the distinct
    id, ["go"] and the library version. *)
Theorem NewEvent_nil_properties (m : Mixpanel) (name distinctID : string) :
  ∃ p : gmap string value,
    NewEvent m name distinctID None = Ret {| Name := name; Properties := Some p |} ∧
    dom p = ({[ "token"; "distinct_id"; "mp_lib"; "$lib_version" ]} : gset string) ∧
    p !! "token" = Some (VString (token m)) ∧
    p !! "distinct_id" = Some (VString distinctID) ∧
    p !! "mp_lib" = Some (VString "go") ∧
    p !! "$lib_version" = Some (VString "v0.0.1").
Proof.
  eexists. split; [apply NewEvent_unfold|].
  split; [|by simplify_map_eq].
  simpl. rewrite !dom_insert_L, dom_empty_L.
  unfold propertyToken, propertyDistinctID, propertyMpLib, propertyLibVersion.
  set_solver.
Qed.

Lemma NewIdentityEvent_unfold m distinctID properties identifiedId anonId :
  NewIdentityEvent m distinctID properties identifiedId anonId =
  Ret {| IdentityEvent_Event :=
    {| Name := "$identify";
       Properties := Some (<["$anon_id" := VString anonId]>
                          (<["$identified_id" := VString identifiedId]>
                          (<[propertyLibVersion := VString version]>
                          (<[propertyMpLib := VString goLib]>
                          (<[propertyDistinctID := VString distinctID]>
                          (<[propertyToken := VString (token m)]>
                          (default ∅ properties))))))) |} |}.
Proof. unfold NewIdentityEvent. rewrite NewEvent_unfold. reflexivity. Qed.

Lemma NewEventFromJson_Ok m json e :
  NewEventFromJson m json = Ok e →
  assert_string (map_index json "event") = Some (Name e) ∧
  assert_map (map_index json "properties") = Some (Properties e).
Proof.
  unfold NewEventFromJson.
  destruct (assert_string _) as [name|]; [|discriminate].
  destruct (assert_map _) as [properties|]; [|discriminate].
  intros [= <-]. done.
Qed.

(** C4 (as amended). Every event built by [NewEvent] or [NewIdentityEvent]
    holds the client's token under [token] and the distinct id it was given
    (possibly empty) under [distinct_id].  [NewEventFromJson] adds nothing:
    the properties of its event are the [properties] entry of its input. *)
Theorem constructors_token_and_distinct_id (m : Mixpanel) :
  (∀ name distinctID properties, ∃ e,
     NewEvent m name distinctID properties = Ret e ∧
     map_index (Properties e) propertyToken = VString (token m) ∧
     map_index (Properties e) propertyDistinctID = VString distinctID) ∧
  (∀ distinctID properties identifiedId anonId, ∃ i,
     NewIdentityEvent m distinctID properties identifiedId anonId = Ret i ∧
     map_index (Properties (IdentityEvent_Event i)) propertyToken = VString (token m) ∧
     map_index (Properties (IdentityEvent_Event i)) propertyDistinctID = VString distinctID) ∧
  (∀ json e, NewEventFromJson m json = Ok e →
     value_of_map (Properties e) = map_index json "properties").
Proof.
  split; [|split].
  - intros. eexists. split; [apply NewEvent_unfold|].
    simpl. by simplify_map_eq.
  - intros. eexists. split; [apply NewIdentityEvent_unfold|].
    simpl. by simplify_map_eq.
  - intros json e [_ He]%NewEventFromJson_Ok.
    destruct (map_index json "properties"); simpl in He; try discriminate;
      by injection He as <-.
Qed.

(** C4, counterexample. The event [NewEventFromJson] builds from
    [{"event":"signup","properties":{}}] has an empty properties map:
    neither a token nor a distinct id. *)
Lemma NewEventFromJson_without_token :
  ∃ e : Event,
    NewEventFromJson sample_client sample_raw_event = Ok e ∧
    Properties e = Some ∅ ∧
    map_index (Properties e) propertyToken = VNil ∧
    map_index (Properties e) propertyDistinctID = VNil.
Proof. eexists. split; [reflexivity|]. repeat split. Qed.

(** C6. [NewEventFromJson] fails, with an error made by [errors.New], exactly
    when the [event] entry of the raw map is not a string or its
    [properties] entry is not a map; otherwise it returns the event whose
    name and properties are those two entries. *)
Theorem NewEventFromJson_malformed_iff (m : Mixpanel) (json : option (gmap string value)) :
  ((∃ msg, NewEventFromJson m json = Err (ErrString msg)) ↔
   ((∀ s, map_index json "event" ≠ VString s) ∨
    (∀ p, map_index json "properties" ≠ value_of_map p))) ∧
  (∀ e, NewEventFromJson m json = Err e → ∃ msg, e = ErrString msg) ∧
  (∀ s p, map_index json "event" = VString s →
          map_index json "properties" = value_of_map p →
          NewEventFromJson m json = Ok {| Name := s; Properties := p |}).
Proof.
  unfold NewEventFromJson. split; [|split].
  - split.
    + intros [msg H].
      destruct (map_index json "event") eqn:Hev; simpl in H;
        try (left; intros ?; discriminate).
      destruct (map_index json "properties") eqn:Hpr; simpl in H;
        try discriminate; right; intros [?|]; discriminate.
    + intros [H|H].
      * destruct (map_index json "event"); simpl; eauto.
        by destruct (H s).
      * destruct (assert_string _); [|eauto].
        destruct (map_index json "properties"); simpl; eauto.
        -- by destruct (H None).
        -- exfalso. by eapply (H (Some _)).
  - intros e. destruct (assert_string _); [|intros [= <-]; eauto].
    destruct (assert_map _); [discriminate|intros [= <-]; eauto].
  - intros s p -> ->. by destruct p.
Qed.

Example NewEventFromJson_event_not_a_string :
  NewEventFromJson sample_client (Some {[ "event" := VFloat64 1; "properties" := VMap ∅ ]}) =
  Err (ErrString "event name is not a string or is missing").
Proof. reflexivity. Qed.

Example NewEventFromJson_properties_null :
  NewEventFromJson sample_client (Some {[ "event" := VString "signup"; "properties" := VNil ]}) =
  Err (ErrString "event properties is not a map or is missing").
Proof. reflexivity. Qed.

Lemma wrap64_small z : - 2 ^ 63 ≤ z < 2 ^ 63 → wrap64 z = z.
Proof. intros Hz. unfold wrap64. rewrite Z.mod_small; lia. Qed.

Lemma unix_nanoseconds_div t :
  unix_nanoseconds t / 1000000 = unixSec t * 1000 + nsec t / 1000000.
Proof.
  unfold unix_nanoseconds.
  replace (unixSec t * 1000000000) with (unixSec t * 1000 * 1000000) by lia.
  by rewrite Z.div_add_l.
Qed.

Lemma UnixMilli_floor t : UnixMilli t = wrap64 (unix_nanoseconds t / 1000000).
Proof. unfold UnixMilli. by rewrite unix_nanoseconds_div. Qed.

(** C7 (as amended). On an event whose properties map is not nil, and for
    every time [t], [AddTime t] returns without a panic and leaves under
    [time] the [int64] [t.UnixMilli()]: the nanoseconds of [t] since the
    epoch divided by 10^6 and rounded down, reduced to 64 bits, which is
    that quotient itself whenever it fits an [int64]. *)
Theorem AddTime_sets_unix_milliseconds (name : string) (p : gmap string value)
    (t : time_Time) :
  ∃ p' : gmap string value,
    AddTime t {| Name := name; Properties := Some p |} =
      Ret {| Name := name; Properties := Some p' |} ∧
    p' !! propertyTime = Some (VInt64 (UnixMilli t)) ∧
    UnixMilli t = wrap64 (unix_nanoseconds t / 1000000) ∧
    (- 2 ^ 63 ≤ unix_nanoseconds t / 1000000 < 2 ^ 63 →
     p' !! propertyTime = Some (VInt64 (unix_nanoseconds t / 1000000))).
Proof.
  exists (<[propertyTime := VInt64 (UnixMilli t)]> p).
  split; [reflexivity|]. rewrite lookup_insert_eq.
  split; [reflexivity|]. split; [apply UnixMilli_floor|].
  intros Hfit. by rewrite UnixMilli_floor, wrap64_small.
Qed.

(** C7, counterexample. On the zero-value event, whose properties map is
    nil, [AddTime] panics instead of setting [time]. *)
Lemma AddTime_nil_properties_panics :
  AddTime sample_time sample_zero_event = Panic "assignment to entry in nil map".
Proof. reflexivity. Qed.

Example AddTime_sample :
  AddTime sample_time {| Name := "signup"; Properties := Some ∅ |} =
  Ret {| Name := "signup"; Properties := Some {[ "time" := VInt64 1700000000123 ]} |}.
Proof. reflexivity. Qed.

(** Before the epoch the quotient is rounded down, not towards zero:
    half a millisecond before 1970 is millisecond -1. *)
Example UnixMilli_before_epoch :
  UnixMilli {| unixSec := -1; nsec := 999500000 |} = -1.
Proof. reflexivity. Qed.




Example AddInsertID_twice :
  AddInsertID "first" {| Name := "signup"; Properties := Some {[ "plan" := VString "free" ]} |}
    ≫= AddInsertID "second" =
  Ret {| Name := "signup";
         Properties := Some {[ "plan" := VString "free"; "$insert_id" := VString "second" ]} |}.
Proof. vm_compute. reflexivity. Qed.

Example AddTime_twice_nil_map :
  AddTime sample_time sample_zero_event ≫= AddTime sample_time =
  AddTime sample_time sample_zero_event.
Proof. reflexivity. Qed.

(** ** The JSON round trip *)















Example coerce_utf8_samples :
  coerce_utf8 "signup" = "signup" ∧
  utf8_valid "Zürich" = true ∧
  utf8_valid (String (ascii_of_N 237) (String (ascii_of_N 160) (String (ascii_of_N 128) "")))
    = false ∧
  coerce_utf8 (String (ascii_of_N 97) (String (ascii_of_N 192) (String (ascii_of_N 98) "")))
    = "a" +:+ replacement_char +:+ "b".
Proof. vm_compute. repeat split. Qed.

(** Two keys that are not UTF-8 are written as the same key; the entry of
    the greater one is written last and is the one a decoder keeps. *)
Example Marshal_colliding_keys :
  Unmarshal_any <$>
    Marshal (VMap {[ String (ascii_of_N 254) "" := VString "fe";
                     String (ascii_of_N 255) "" := VString "ff";
                     "plan" := VString "free" ]}) =
  Some (VMap {[ replacement_char := VString "ff"; "plan" := VString "free" ]}).
Proof. vm_compute. reflexivity. Qed.

Example Marshal_NaN_unsupported :
  reparse_Event sample_client
    {| Name := "signup"; Properties := Some {[ "ratio" := VFloat64 nan ]} |} =
  Err (ErrLibrary "json: unsupported value").
Proof. vm_compute. reflexivity. Qed.

(** ** Properties of ingestion.go *)

Lemma Itoa_inj i j : Itoa i = Itoa j → i = j.
Proof. unfold Itoa. apply (inj pretty). Qed.

Example Itoa_samples : Itoa 0 = "0" ∧ Itoa 117 = "117" ∧ Itoa (-42) = "-42".
Proof. repeat split. Qed.

Lemma Import_response_other (r : Response) :
  StatusCode r ≠ 200 → StatusCode r ≠ 400 → StatusCode r ≠ 401 →
  StatusCode r ≠ 413 → StatusCode r ≠ 429 →
  Import_response r = Err (ErrString ("unexpected status code: " +:+ Itoa (StatusCode r))).
Proof.
  intros H200 H400 H401 H413 H429. unfold Import_response.
  unfold StatusOK, StatusBadRequest, StatusUnauthorized,
    StatusRequestEntityTooLarge, StatusTooManyRequests.
  apply Z.eqb_neq in H200, H400, H401, H413, H429.
  by rewrite H200, H400, H401, H413, H429.
Qed.

(** C1 (as amended). When the transport returns a response, [Import]
    classifies it by status code: on 200 a body that decodes gives the
    decoded [ImportSuccess]; on 400 it gives the decoded
    [ImportFailedValidationError], failed records included, as the error; on
    401, 413 and 429 alike it gives the decoded [ImportGenericError] as the
    error, a value built from the body alone; on every other status the
    error is the text ["unexpected status code: "] followed by the code in
    decimal, from which the code can be read back. *)
Theorem Import_classifies_by_status
    (doRequest : Mixpanel → doRequestArgs → result Response)
    (m : Mixpanel) (events : list Event) (options : ImportOptions) (r : Response) :
  doRequest m (Import_request m events options) = Ok r →
  (StatusCode r = 200 → ∀ s, Decode_ImportSuccess (Body r) = Decoded s →
     Import doRequest m events options = Ok s) ∧
  (StatusCode r = 400 → ∀ g,
     Decode_ImportFailedValidationError (Body r) = Decoded g →
     Import doRequest m events options = Err (ErrImportFailedValidation g)) ∧
  (StatusCode r = 401 ∨ StatusCode r = 413 ∨ StatusCode r = 429 → ∀ g,
     Decode_ImportGenericError (Body r) = Decoded g →
     Import doRequest m events options = Err (ErrImportGeneric g)) ∧
  (StatusCode r ∉ [200; 400; 401; 413; 429] →
     Import doRequest m events options =
       Err (ErrString ("unexpected status code: " +:+ Itoa (StatusCode r))) ∧
     ∀ code, Itoa code = Itoa (StatusCode r) → code = StatusCode r).
Proof.
  intros Hsent. unfold Import. rewrite Hsent.
  split; [|split; [|split]].
  - intros Hcode s Hs. unfold Import_response. by rewrite Hcode, Hs.
  - intros Hcode g Hg. unfold Import_response. by rewrite Hcode, Hg.
  - intros Hcode g Hg. unfold Import_response.
    by destruct Hcode as [->| [->| ->]]; rewrite Hg.
  - intros Hcode. split; [|intros code; apply Itoa_inj].
    apply Import_response_other; intros Heq; apply Hcode; rewrite Heq;
      set_solver.
Qed.

(** C1, an instance: the validation failure of the spec's scenario, a 400
    whose body lists one failed record. *)
Lemma Import_classifies_by_status_witness :
  stub_transport {| StatusCode := 400; Body := sample_validation_body |} sample_client
    (Import_request sample_client [] ImportOptionsRecommend) =
    Ok {| StatusCode := 400; Body := sample_validation_body |} ∧
  Import (stub_transport {| StatusCode := 400; Body := sample_validation_body |})
    sample_client [] ImportOptionsRecommend =
    Err (ErrImportFailedValidation sample_validation_error) ∧
  length (FailedImportRecords sample_validation_error) = 1%nat.
Proof.
  split; [reflexivity|]. split; [|reflexivity].
  apply (Import_classifies_by_status
           (stub_transport {| StatusCode := 400; Body := sample_validation_body |})
           sample_client [] ImportOptionsRecommend
           {| StatusCode := 400; Body := sample_validation_body |});
    reflexivity.
Defined.

(** C1, counterexample. The same body under status 401, 413 and 429 makes
    [Import] return one and the same error value, so nothing computed from
    the returned error can tell unauthorized, payload-too-large and
    rate-limited apart. *)
Lemma Import_generic_error_forgets_status :
  Import (stub_transport {| StatusCode := 401; Body := sample_error_body |})
    sample_client [] ImportOptionsRecommend = Err (ErrImportGeneric sample_generic_error) ∧
  Import (stub_transport {| StatusCode := 413; Body := sample_error_body |})
    sample_client [] ImportOptionsRecommend = Err (ErrImportGeneric sample_generic_error) ∧
  Import (stub_transport {| StatusCode := 429; Body := sample_error_body |})
    sample_client [] ImportOptionsRecommend = Err (ErrImportGeneric sample_generic_error) ∧
  ¬ ∃ kind : result ImportSuccess → ApiErrorKind,
      kind (Import (stub_transport {| StatusCode := 401; Body := sample_error_body |})
              sample_client [] ImportOptionsRecommend) = unauthorized ∧
      kind (Import (stub_transport {| StatusCode := 413; Body := sample_error_body |})
              sample_client [] ImportOptionsRecommend) = payload_too_large ∧
      kind (Import (stub_transport {| StatusCode := 429; Body := sample_error_body |})
              sample_client [] ImportOptionsRecommend) = rate_limited.
Proof.
  repeat split. intros (kind & H401 & _ & H429).
  change (kind (Err (ErrImportGeneric sample_generic_error)) = unauthorized) in H401.
  change (kind (Err (ErrImportGeneric sample_generic_error)) = rate_limited) in H429.
  congruence.
Qed.

Example Import_success_scenario :
  Import (stub_transport {| StatusCode := 200; Body := sample_success_body |})
    sample_client [] ImportOptionsRecommend =
  Ok {| ImportSuccess_Code := 0; ImportSuccess_NumRecordsImported := 2;
        ImportSuccess_Status := VFloat64 1 |}.
Proof. reflexivity. Qed.

Example Import_unexpected_status :
  Import (stub_transport {| StatusCode := 503; Body := sample_html_body |})
    sample_client [] ImportOptionsRecommend =
  Err (ErrString "unexpected status code: 503").
Proof. reflexivity. Qed.

Lemma Import_response_decode_fails (r : Response) (msg : string) :
  Import_decode_fails r msg →
  ∃ text, Import_response r = Err (ErrWrap text (ErrLibrary msg)).
Proof.
  unfold Import_response.
  intros [[-> ->]|[[-> ->]|[[->|[->| ->]] ->]]]; eexists; reflexivity.
Qed.

Lemma ListLookupTables_response_decode_fails (r : Response) (msg : string) :
  ListLookupTables_decode_fails r msg →
  ∃ text, ListLookupTables_response r = Err (ErrWrap text (ErrLibrary msg)).
Proof.
  unfold ListLookupTables_response.
  intros [[-> ->]|[-> ->]]; eexists; reflexivity.
Qed.

(** C2. When the response has a status on which the operation decodes the
    body as JSON (200, 400, 401, 413, 429 for [Import]; 200, 401 for
    [ListLookupTables]) and the decoder fails, the operation returns an
    error, as a value and without a panic: the decoder's error wrapped by
    [fmt.Errorf].  That error is none of the API error types, neither
    itself nor anywhere along its chain of wrapped errors, and it is not
    the unexpected-status error either. *)
Theorem decode_failure_is_DecodeError
    (doRequest : Mixpanel → doRequestArgs → result Response)
    (m : Mixpanel) (events : list Event) (options : ImportOptions)
    (r : Response) (msg : string) :
  (doRequest m (Import_request m events options) = Ok r →
   Import_decode_fails r msg →
   ∃ text, Import doRequest m events options = Err (ErrWrap text (ErrLibrary msg))) ∧
  (doRequest m (ListLookupTables_request m) = Ok r →
   ListLookupTables_decode_fails r msg →
   ∃ text, ListLookupTables doRequest m = Err (ErrWrap text (ErrLibrary msg))) ∧
  (∀ text, is_ApiError (ErrWrap text (ErrLibrary msg)) = false ∧
           ApiError_in_chain (ErrWrap text (ErrLibrary msg)) = false ∧
           ∀ code, ErrWrap text (ErrLibrary msg) ≠ Errorf_d "unexpected status code: " code).
Proof.
  split; [|split].
  - intros Hsent Hfail. unfold Import. rewrite Hsent.
    by apply Import_response_decode_fails.
  - intros Hsent Hfail. unfold ListLookupTables. rewrite Hsent.
    by apply ListLookupTables_response_decode_fails.
  - intros text. repeat split. intros code. discriminate.
Qed.

(** C2, an instance: an HTML page where JSON was expected, under status 200,
    for both operations. *)
Lemma decode_failure_is_DecodeError_witness :
  Import_decode_fails {| StatusCode := 200; Body := sample_html_body |} sample_html_error ∧
  ListLookupTables_decode_fails {| StatusCode := 200; Body := sample_html_body |}
    sample_html_error ∧
  (∃ text,
     Import (stub_transport {| StatusCode := 200; Body := sample_html_body |})
       sample_client [] ImportOptionsRecommend =
     Err (ErrWrap text (ErrLibrary sample_html_error))) ∧
  (∃ text,
     ListLookupTables (stub_transport {| StatusCode := 200; Body := sample_html_body |})
       sample_client =
     Err (ErrWrap text (ErrLibrary sample_html_error))).
Proof.
  assert (Import_decode_fails {| StatusCode := 200; Body := sample_html_body |}
            sample_html_error) as HI by (left; split; reflexivity).
  assert (ListLookupTables_decode_fails {| StatusCode := 200; Body := sample_html_body |}
            sample_html_error) as HL by (left; split; reflexivity).
  split; [exact HI|]. split; [exact HL|].
  destruct (decode_failure_is_DecodeError
              (stub_transport {| StatusCode := 200; Body := sample_html_body |})
              sample_client [] ImportOptionsRecommend
              {| StatusCode := 200; Body := sample_html_body |} sample_html_error)
    as (HImport & HList & _).
  split; [exact (HImport eq_refl HI)|exact (HList eq_refl HL)].
Defined.

Example Import_decode_failure_message :
  Import (stub_transport {| StatusCode := 429; Body := sample_html_body |})
    sample_client [] ImportOptionsRecommend =
  Err (ErrWrap
         "failed to json decode response body: invalid character '<' looking for beginning of value"
         (ErrLibrary "invalid character '<' looking for beginning of value")).
Proof. reflexivity. Qed.

Example ListLookupTables_unauthorized_scenario :
  ListLookupTables (stub_transport {| StatusCode := 401; Body := sample_error_body |})
    sample_client =
  Err (ErrLookupTable {| LookupTableError_Code := 401;
                         LookupTableError_ApiError := "Unauthorized";
                         LookupTableError_Status := VString "Error" |}).
Proof. reflexivity. Qed.

Lemma Values_Add_fresh (v : gmap string (list string)) key val :
  v !! key = None → Values_Add v key val = <[key := [val]]> v.
Proof. intros Hkey. unfold Values_Add. by rewrite Hkey. Qed.

Lemma Import_values_eq (m : Mixpanel) (options : ImportOptions) :
  Import_values m options =
  {[ "strict" := [if Strict options then "1" else "0"];
     "project_id" := [Itoa (projectID m)];
     "verbose" := ["1"] ]}.
Proof.
  unfold Import_values.
  rewrite (Values_Add_fresh _ "verbose") by (by destruct (Strict options); simplify_map_eq).
  rewrite (Values_Add_fresh _ "project_id") by (by destruct (Strict options); simplify_map_eq).
  destruct (Strict options); rewrite Values_Add_fresh by done;
    apply map_eq; intros k; by simplify_map_eq.
Qed.

(** C9. Whatever the options, the call [Import] hands to [doRequest]
    carries one set of query parameters, with exactly three keys of one
    value each: [strict], which is ["1"] when [Strict] is set and ["0"]
    when it is not; [project_id], the client's project id in decimal; and
    [verbose], which is ["1"]. *)
Theorem Import_query_parameters (m : Mixpanel) (events : list Event)
    (options : ImportOptions) :
  query_params (Import_request m events options) =
    [ {[ "strict" := [if Strict options then "1" else "0"];
         "project_id" := [Itoa (projectID m)];
         "verbose" := ["1"] ]} ] ∧
  dom (Import_values m options) = ({[ "strict"; "project_id"; "verbose" ]} : gset string) ∧
  ∀ doRequest, Import doRequest m events options =
    match doRequest m (Import_request m events options) with
    | Ok r => Import_response r
    | Err err => Err (Errorf_w "failed to import:" err)
    end.
Proof.
  split; [|split].
  - simpl. unfold query_params. simpl. by rewrite Import_values_eq.
  - rewrite Import_values_eq, !dom_insert_L, dom_singleton_L. set_solver.
  - reflexivity.
Qed.

Example Import_query_sample :
  query_params (Import_request sample_client [] ImportOptionsRecommend) =
  [ {[ "strict" := ["1"]; "project_id" := ["117"]; "verbose" := ["1"] ]} ].
Proof. vm_compute. reflexivity. Qed.

(** * Further properties *)

(** ** Client construction *)

Lemma client_option_keeps_credentials o mp :
  client_option o →
  projectID (o mp) = projectID mp ∧ token (o mp) = token mp ∧
  apiSecret (o mp) = apiSecret mp.
Proof. intros [? []|]; done. Qed.

Lemma plain_option_keeps_account o mp :
  plain_option o → serviceAccount (o mp) = serviceAccount mp.
Proof. by intros []. Qed.

Lemma foldl_plain_options_account opts mp :
  Forall plain_option opts →
  serviceAccount (foldl (λ mp o, o mp) mp opts) = serviceAccount mp.
Proof.
  intros Hopts. revert mp.
  induction Hopts as [|o opts Ho _ IH]; intros mp; [done|].
  simpl. by rewrite IH, plain_option_keeps_account.
Qed.

Lemma foldl_client_options_credentials opts mp :
  Forall client_option opts →
  projectID (foldl (λ mp o, o mp) mp opts) = projectID mp ∧
  token (foldl (λ mp o, o mp) mp opts) = token mp ∧
  apiSecret (foldl (λ mp o, o mp) mp opts) = apiSecret mp.
Proof.
  intros Hopts. revert mp.
  induction Hopts as [|o opts Ho _ IH]; intros mp; [done|].
  simpl. destruct (client_option_keeps_credentials o mp Ho) as (<- & <- & <-).
  apply IH.
Qed.

(** X1. Whichever of [EuResidency], [ProxyApiLocation],
    [ProxyDataLocation], [SetServiceAccount] and [DebugHttpCalls] a client
    is built with, and in whatever order, its project id, token and API
    secret are the ones given to [NewClient]: none of these options
    rewrites a credential. *)
Theorem NewClient_keeps_credentials (pid : Z) (tok sec : string)
    (opts : list (Mixpanel → Mixpanel)) :
  Forall client_option opts →
  projectID (NewClient pid tok sec opts) = pid ∧
  token (NewClient pid tok sec opts) = tok ∧
  apiSecret (NewClient pid tok sec opts) = sec.
Proof.
  intros Hopts. unfold NewClient.
  by destruct (foldl_client_options_credentials opts
                 {| apiEndpoint := usEndpoint; dataEndpoint := usDataEndpoint;
                    projectID := pid; token := tok; apiSecret := sec;
                    serviceAccount := None; debugHttp := false |} Hopts)
    as (-> & -> & ->).
Qed.

(** X1, an instance. *)
Lemma NewClient_keeps_credentials_witness :
  Forall client_option
    [EuResidency; SetServiceAccount "svc" "s3cret"; ProxyApiLocation "http://localhost:8080"] ∧
  projectID (NewClient 117 "project-token" "api-secret"
    [EuResidency; SetServiceAccount "svc" "s3cret"; ProxyApiLocation "http://localhost:8080"])
    = 117 ∧
  token (NewClient 117 "project-token" "api-secret"
    [EuResidency; SetServiceAccount "svc" "s3cret"; ProxyApiLocation "http://localhost:8080"])
    = "project-token" ∧
  apiSecret (NewClient 117 "project-token" "api-secret"
    [EuResidency; SetServiceAccount "svc" "s3cret"; ProxyApiLocation "http://localhost:8080"])
    = "api-secret".
Proof.
  assert (Forall client_option
    [EuResidency; SetServiceAccount "svc" "s3cret"; ProxyApiLocation "http://localhost:8080"])
    as Hopts by (repeat constructor).
  split; [exact Hopts|].
  exact (NewClient_keeps_credentials 117 "project-token" "api-secret" _ Hopts).
Defined.

(** X2. Options take effect in the order given, the later one winning:
    after any options, a proxy for the API given after [EuResidency]
    replaces the EU API endpoint and keeps the EU data endpoint, while
    [EuResidency] given after the proxy discards the proxy. *)
Theorem NewClient_endpoint_order (pid : Z) (tok sec proxy : string)
    (opts : list (Mixpanel → Mixpanel)) :
  (∀ o, NewClient pid tok sec (opts ++ [o]) = o (NewClient pid tok sec opts)) ∧
  apiEndpoint (NewClient pid tok sec (opts ++ [EuResidency; ProxyApiLocation proxy]))
    = proxy ∧
  dataEndpoint (NewClient pid tok sec (opts ++ [EuResidency; ProxyApiLocation proxy]))
    = euDataEndpoint ∧
  apiEndpoint (NewClient pid tok sec (opts ++ [ProxyApiLocation proxy; EuResidency]))
    = euEndpoint ∧
  dataEndpoint (NewClient pid tok sec (opts ++ [ProxyApiLocation proxy; EuResidency]))
    = euDataEndpoint.
Proof.
  unfold NewClient. split; [intros o; by rewrite foldl_snoc|].
  by rewrite !foldl_app.
Qed.

Example NewClient_defaults :
  apiEndpoint (NewClient 117 "project-token" "api-secret" []) = "https://api.mixpanel.com" ∧
  dataEndpoint (NewClient 117 "project-token" "api-secret" []) = "https://data.mixpanel.com" ∧
  serviceAccount (NewClient 117 "project-token" "api-secret" []) = None.
Proof. repeat split. Qed.

(** X3. The service account of a client is the one of the last
    [SetServiceAccount] among its options, whatever other options come
    before it or after it; a client built with none of that option has
    no service account, which is the client [Import] then hands to
    [useServiceAccount]. *)
Theorem NewClient_service_account (pid : Z) (tok sec username secret : string)
    (before after : list (Mixpanel → Mixpanel)) :
  Forall plain_option after →
  serviceAccount
    (NewClient pid tok sec (before ++ SetServiceAccount username secret :: after)) =
    Some {| Username := username; Secret := secret |} ∧
  serviceAccount (NewClient pid tok sec after) = None.
Proof.
  intros Hafter. unfold NewClient.
  rewrite foldl_app. simpl.
  by rewrite !foldl_plain_options_account.
Qed.

(** X3, an instance. *)
Lemma NewClient_service_account_witness :
  Forall plain_option [EuResidency; DebugHttpCalls] ∧
  serviceAccount
    (NewClient 117 "project-token" "api-secret"
       ([SetServiceAccount "old" "x"] ++ SetServiceAccount "svc" "s3cret"
          :: [EuResidency; DebugHttpCalls])) =
    Some {| Username := "svc"; Secret := "s3cret" |} ∧
  serviceAccount
    (NewClient 117 "project-token" "api-secret" [EuResidency; DebugHttpCalls]) = None.
Proof.
  assert (Forall plain_option [EuResidency; DebugHttpCalls]) as Hafter
    by (repeat constructor).
  split; [exact Hafter|].
  exact (NewClient_service_account 117 "project-token" "api-secret" "svc" "s3cret"
           [SetServiceAccount "old" "x"] [EuResidency; DebugHttpCalls] Hafter).
Defined.

(** ** Events *)



Example enriched_event_sample :
  (NewEvent sample_client "signup" "user-1" (Some {[ "time" := VString "yesterday" ]})
     ≫= AddTime sample_time) ≫= AddInsertID "a1" =
  Ret {| Name := "signup";
         Properties := Some {[ "token" := VString "project-token";
                               "distinct_id" := VString "user-1";
                               "mp_lib" := VString "go";
                               "$lib_version" := VString "v0.0.1";
                               "time" := VInt64 1700000000123;
                               "$insert_id" := VString "a1" ]} |}.
Proof. vm_compute. reflexivity. Qed.

(** X5. An event built over the properties map of an earlier event (one
    and the same map in Go, since [NewEvent] writes into the map it is
    given) leaves that map as if the second [NewEvent] alone had run on
    the caller's original map: the token and distinct id of the first
    construction are overwritten, and nothing accumulates. *)
Theorem NewEvent_over_used_map (m1 m2 : Mixpanel) (name1 name2 id1 id2 : string)
    (properties : option (gmap string value)) :
  NewEvent m1 name1 id1 properties ≫= (λ e1, NewEvent m2 name2 id2 (Properties e1))
  =@{run Event} NewEvent m2 name2 id2 properties.
Proof.
  rewrite !NewEvent_unfold. simpl. rewrite NewEvent_unfold. simpl.
  do 3 f_equal. apply map_eq. intros k.
  rewrite !lookup_insert. by repeat case_decide.
Qed.

Example NewEvent_over_used_map_sample :
  NewEvent sample_client "signup" "user-1" None
    ≫= (λ e1, NewEvent sample_client "login" "user-2" (Properties e1)) =
  Ret {| Name := "login";
         Properties := Some {[ "token" := VString "project-token";
                               "distinct_id" := VString "user-2";
                               "mp_lib" := VString "go";
                               "$lib_version" := VString "v0.0.1" ]} |}.
Proof. vm_compute. reflexivity. Qed.

(** X6. [NewIdentityEvent] never panics and returns the event named
    [$identify] whose identified id and anonymous id are the ones given,
    whatever the caller's map held under those keys.  On that event
    [SetIdentifiedId] replaces the identified id and leaves the anonymous
    id alone, and [AnonId], for all its name, is a second setter: it
    replaces the anonymous id and returns nothing of the event. *)
Theorem NewIdentityEvent_ids (m : Mixpanel) (distinctID : string)
    (properties : option (gmap string value)) (identifiedId anonId : string) :
  ∃ i : IdentityEvent,
    NewIdentityEvent m distinctID properties identifiedId anonId = Ret i ∧
    Name (IdentityEvent_Event i) = "$identify" ∧
    IdentifiedId i = VString identifiedId ∧
    map_index (Properties (IdentityEvent_Event i)) "$anon_id" = VString anonId ∧
    (∀ id, ∃ i', SetIdentifiedId id i = Ret i' ∧
       IdentifiedId i' = VString id ∧
       map_index (Properties (IdentityEvent_Event i')) "$anon_id" = VString anonId) ∧
    (∀ id, ∃ i', AnonId id i = Ret i' ∧
       AnonId id i = SetAnonId id i ∧
       IdentifiedId i' = VString identifiedId ∧
       map_index (Properties (IdentityEvent_Event i')) "$anon_id" = VString id).
Proof.
  eexists. split; [apply NewIdentityEvent_unfold|].
  unfold IdentifiedId. simpl.
  repeat split; try by simplify_map_eq.
  - intros id. eexists. split; [reflexivity|]. simpl. by simplify_map_eq.
  - intros id. eexists. split; [reflexivity|]. simpl. by simplify_map_eq.
Qed.

Example IdentifiedId_unset :
  IdentifiedId {| IdentityEvent_Event := sample_zero_event |} = VNil ∧
  SetIdentifiedId "user-1" {| IdentityEvent_Event := sample_zero_event |} =
    Panic "assignment to entry in nil map".
Proof. split; reflexivity. Qed.

(** ** Responses *)

Lemma Import_response_cases (r : Response) :
  (StatusCode r = 200 ∧
   Import_response r =
     match Decode_ImportSuccess (Body r) with
     | DecodeFailed msg => Err (Errorf_w "failed to parse response body:" (ErrLibrary msg))
     | Decoded s => Ok s
     end) ∨
  (StatusCode r = 400 ∧
   Import_response r =
     match Decode_ImportFailedValidationError (Body r) with
     | DecodeFailed msg =>
         Err (Errorf_w "failed to json decode response body: " (ErrLibrary msg))
     | Decoded g => Err (ErrImportFailedValidation g)
     end) ∨
  ((StatusCode r = 401 ∨ StatusCode r = 413 ∨ StatusCode r = 429) ∧
   Import_response r =
     match Decode_ImportGenericError (Body r) with
     | DecodeFailed msg =>
         Err (Errorf_w "failed to json decode response body: " (ErrLibrary msg))
     | Decoded g => Err (ErrImportGeneric g)
     end) ∨
  ((StatusCode r ∉ [200; 400; 401; 413; 429]) ∧
   Import_response r = Err (ErrString ("unexpected status code: " +:+ Itoa (StatusCode r)))).
Proof.
  unfold Import_response, StatusOK, StatusBadRequest, StatusUnauthorized,
    StatusRequestEntityTooLarge, StatusTooManyRequests.
  destruct (Z.eqb_spec (StatusCode r) 200) as [?|H200]; [by left|].
  destruct (Z.eqb_spec (StatusCode r) 400) as [?|H400]; [by right; left|].
  destruct (Z.eqb_spec (StatusCode r) 401) as [?|H401]; [right; right; left; eauto|].
  destruct (Z.eqb_spec (StatusCode r) 413) as [?|H413]; [right; right; left; eauto|].
  destruct (Z.eqb_spec (StatusCode r) 429) as [?|H429]; [right; right; left; eauto|].
  right; right; right. split; [|reflexivity].
  rewrite !not_elem_of_cons. repeat split; try done. apply not_elem_of_nil.
Qed.

(** X7. What [Import] returns tells what happened.  It returns a success
    exactly when a response came back with status 200 and a body that
    decodes, and then the success is the decoded body; a validation error
    exactly on a decodable 400; a generic API error exactly on a decodable
    401, 413 or 429; the unexpected-status error exactly on a response
    with any other status.  In particular no status but 200 ever yields a
    success, and [Import] never returns a lookup-table error. *)
Theorem Import_outcome_inversion
    (doRequest : Mixpanel → doRequestArgs → result Response)
    (m : Mixpanel) (events : list Event) (options : ImportOptions) :
  (∀ s, Import doRequest m events options = Ok s ↔
     ∃ r, doRequest m (Import_request m events options) = Ok r ∧
          StatusCode r = 200 ∧ Decode_ImportSuccess (Body r) = Decoded s) ∧
  (∀ g, Import doRequest m events options = Err (ErrImportFailedValidation g) ↔
     ∃ r, doRequest m (Import_request m events options) = Ok r ∧
          StatusCode r = 400 ∧
          Decode_ImportFailedValidationError (Body r) = Decoded g) ∧
  (∀ g, Import doRequest m events options = Err (ErrImportGeneric g) ↔
     ∃ r, doRequest m (Import_request m events options) = Ok r ∧
          (StatusCode r = 401 ∨ StatusCode r = 413 ∨ StatusCode r = 429) ∧
          Decode_ImportGenericError (Body r) = Decoded g) ∧
  (∀ msg, Import doRequest m events options = Err (ErrString msg) ↔
     ∃ r, doRequest m (Import_request m events options) = Ok r ∧
          (StatusCode r ∉ [200; 400; 401; 413; 429]) ∧
          msg = "unexpected status code: " +:+ Itoa (StatusCode r)) ∧
  (∀ e, Import doRequest m events options ≠ Err (ErrLookupTable e)).
Proof.
  unfold Import.
  destruct (doRequest m (Import_request m events options)) as [r|err].
  2:{ repeat split; try discriminate; intros (r & Hr & _); discriminate. }
  assert (∀ P : Response → Prop, (∃ r', Ok r = Ok r' ∧ P r') ↔ P r) as Hex.
  { intros P. split; [by intros (r' & [= <-] & HP)|eauto]. }
  setoid_rewrite Hex. clear Hex.
  destruct (Import_response_cases r)
    as [[Hcode ->]|[[Hcode ->]|[[Hcode ->]|[Hcode ->]]]].
  - assert (StatusCode r ∈ [200; 400; 401; 413; 429]) by (rewrite !elem_of_cons; tauto).
    destruct (Decode_ImportSuccess (Body r)); unfold Errorf_w;
      intuition (try congruence; try lia).
  - assert (StatusCode r ∈ [200; 400; 401; 413; 429]) by (rewrite !elem_of_cons; tauto).
    destruct (Decode_ImportFailedValidationError (Body r)); unfold Errorf_w;
      intuition (try congruence; try lia).
  - assert (StatusCode r ∈ [200; 400; 401; 413; 429]) by (rewrite !elem_of_cons; tauto).
    destruct (Decode_ImportGenericError (Body r)); unfold Errorf_w;
      intuition (try congruence; try lia).
  - assert (StatusCode r ≠ 200 ∧ StatusCode r ≠ 400 ∧ StatusCode r ≠ 401 ∧
            StatusCode r ≠ 413 ∧ StatusCode r ≠ 429) as (? & ? & ? & ? & ?)
      by (rewrite !not_elem_of_cons in Hcode; tauto).
    intuition (try congruence; try lia).
Qed.

Lemma ListLookupTables_response_cases (r : Response) :
  (StatusCode r = 200 ∧
   ListLookupTables_response r =
     match Decode_LookupTable (Body r) with
     | DecodeFailed msg => Err (Errorf_w "failed to decode results: " (ErrLibrary msg))
     | Decoded t => Ok t
     end) ∨
  (StatusCode r = 401 ∧
   ListLookupTables_response r =
     match Decode_LookupTableError (Body r) with
     | DecodeFailed msg => Err (Errorf_w "failed to decode error response:" (ErrLibrary msg))
     | Decoded e => Err (ErrLookupTable e)
     end) ∨
  (StatusCode r ≠ 200 ∧ StatusCode r ≠ 401 ∧
   ListLookupTables_response r =
     Err (ErrString ("unexpected status code: " +:+ Itoa (StatusCode r)))).
Proof.
  unfold ListLookupTables_response, StatusOK, StatusUnauthorized.
  destruct (Z.eqb_spec (StatusCode r) 200) as [?|H200]; [by left|].
  destruct (Z.eqb_spec (StatusCode r) 401) as [?|H401]; [by right; left|].
  by right; right.
Qed.

(** X8. [ListLookupTables] returns a table exactly on a decodable 200 and
    a [LookupTableError] exactly on a decodable 401.  Every other status
    is unexpected, the 400, 413 and 429 that [Import] decodes included.
    A plain text error comes from two sources that differ in their text
    only: an unexpected status, or a request that could not be sent. *)
Theorem ListLookupTables_outcome_inversion
    (doRequest : Mixpanel → doRequestArgs → result Response) (m : Mixpanel) :
  (∀ t, ListLookupTables doRequest m = Ok t ↔
     ∃ r, doRequest m (ListLookupTables_request m) = Ok r ∧
          StatusCode r = 200 ∧ Decode_LookupTable (Body r) = Decoded t) ∧
  (∀ e, ListLookupTables doRequest m = Err (ErrLookupTable e) ↔
     ∃ r, doRequest m (ListLookupTables_request m) = Ok r ∧
          StatusCode r = 401 ∧ Decode_LookupTableError (Body r) = Decoded e) ∧
  (∀ msg, ListLookupTables doRequest m = Err (ErrString msg) ↔
     (∃ r, doRequest m (ListLookupTables_request m) = Ok r ∧
           StatusCode r ≠ 200 ∧ StatusCode r ≠ 401 ∧
           msg = "unexpected status code: " +:+ Itoa (StatusCode r)) ∨
     (∃ err, doRequest m (ListLookupTables_request m) = Err err ∧
             msg = "failed to call list lookup tables: " +:+ Error err)).
Proof.
  unfold ListLookupTables.
  destruct (doRequest m (ListLookupTables_request m)) as [r|err].
  - assert (∀ P : Response → Prop, (∃ r', Ok r = Ok r' ∧ P r') ↔ P r) as Hex.
    { intros P. split; [by intros (r' & [= <-] & HP)|eauto]. }
    assert (∀ P : error → Prop, (∃ err, @Ok Response r = Err err ∧ P err) ↔ False) as Hno.
    { intros P. split; [by intros (err & ? & _)|done]. }
    setoid_rewrite Hex. setoid_rewrite Hno. clear Hex Hno.
    destruct (ListLookupTables_response_cases r)
      as [[Hcode ->]|[[Hcode ->]|(H200 & H401 & ->)]].
    + destruct (Decode_LookupTable (Body r)); unfold Errorf_w;
        intuition (try congruence; try lia).
    + destruct (Decode_LookupTableError (Body r)); unfold Errorf_w;
        intuition (try congruence; try lia).
    + intuition (try congruence; try lia).
  - repeat split; try discriminate.
    + intros (r & ? & _); discriminate.
    + intros (r & ? & _); discriminate.
    + intros [= <-]. right. eauto.
    + intros [(r & ? & _)|(err' & [= <-] & ->)]; [discriminate|reflexivity].
Qed.

Example ListLookupTables_rate_limited :
  ListLookupTables (stub_transport {| StatusCode := 429; Body := sample_error_body |})
    sample_client = Err (ErrString "unexpected status code: 429").
Proof. reflexivity. Qed.

(** ** Requests *)

(** X9. When the request cannot be sent, [Import] and [Track] return an
    error that wraps the transport's error, which [errors.Unwrap] gives
    back, while [ListLookupTables] returns a plain error that keeps the
    transport error's text and not the error itself.  In all three the
    text is the operation's prefix followed by the transport error's. *)
Theorem transport_failure_wrapping
    (doRequest : Mixpanel → doRequestArgs → result Response)
    (returnVerboseError : Response → option error)
    (m : Mixpanel) (events : list Event) (options : ImportOptions) (err : error) :
  (doRequest m (Import_request m events options) = Err err →
   ∃ e, Import doRequest m events options = Err e ∧ Unwrap e = Some err ∧
        Error e = "failed to import:" +:+ Error err) ∧
  (doRequest m (Track_request m events) = Err err →
   ∃ e, Track doRequest returnVerboseError m events = Some e ∧ Unwrap e = Some err ∧
        Error e = "failed to track event: " +:+ Error err) ∧
  (doRequest m (ListLookupTables_request m) = Err err →
   ∃ e, ListLookupTables doRequest m = Err e ∧ Unwrap e = None ∧
        Error e = "failed to call list lookup tables: " +:+ Error err).
Proof.
  unfold Import, Track, ListLookupTables.
  split; [|split]; intros ->; eexists; repeat split.
Qed.

(** X9, an instance: a refused connection. *)
Lemma transport_failure_wrapping_witness :
  (∃ e, Import (failing_transport sample_transport_error) sample_client []
          ImportOptionsRecommend = Err e ∧
        Unwrap e = Some sample_transport_error ∧
        Error e = "failed to import:" +:+ Error sample_transport_error) ∧
  (∃ e, ListLookupTables (failing_transport sample_transport_error) sample_client = Err e ∧
        Unwrap e = None ∧
        Error e = "failed to call list lookup tables: " +:+ Error sample_transport_error).
Proof.
  destruct (transport_failure_wrapping (failing_transport sample_transport_error)
              (λ _, None) sample_client [] ImportOptionsRecommend sample_transport_error)
    as (HImport & _ & HList).
  split; [exact (HImport eq_refl)|exact (HList eq_refl)].
Defined.

Example Import_transport_failure_message :
  Import (failing_transport sample_transport_error) sample_client [] ImportOptionsRecommend =
  Err (ErrWrap "failed to import:dial tcp 127.0.0.1:443: connect: connection refused"
               sample_transport_error).
Proof. reflexivity. Qed.

Lemma Track_values_eq : Track_values = {[ "verbose" := ["1"] ]}.
Proof. unfold Track_values. by rewrite Values_Add_fresh. Qed.

Lemma ListLookupTables_values_eq (m : Mixpanel) :
  ListLookupTables_values m = {[ "project_id" := [Itoa (projectID m)] ]}.
Proof. unfold ListLookupTables_values. by rewrite Values_Add_fresh. Qed.

(** X10. Of [Track], [Import] and [ListLookupTables], only [Import] passes
    the [useServiceAccount] option and the caller's compression; the
    other two pass no such option, even on a client that has a service
    account, and send uncompressed.  [Track] alone accepts plain text, and its only
    query parameter is [verbose=1]; [ListLookupTables] sends no payload
    and only [project_id].  None of the three requests depends on the
    data endpoint. *)
Theorem requests_compared (m : Mixpanel) (events : list Event) (options : ImportOptions) :
  (accounts_of (Import_request m events options) = [serviceAccount m] ∧
   accounts_of (Track_request m events) = [] ∧
   accounts_of (ListLookupTables_request m) = []) ∧
  (arg_compression (Import_request m events options) = Compression options ∧
   arg_compression (Track_request m events) = MpNone ∧
   arg_compression (ListLookupTables_request m) = MpNone) ∧
  (acceptPlainText ∈ arg_options (Track_request m events) ∧
   (acceptJson ∉ arg_options (Track_request m events)) ∧
   (acceptPlainText ∉ arg_options (Import_request m events options)) ∧
   (acceptPlainText ∉ arg_options (ListLookupTables_request m))) ∧
  (query_params (Track_request m events) = [ {[ "verbose" := ["1"] ]} ] ∧
   query_params (ListLookupTables_request m) = [ {[ "project_id" := [Itoa (projectID m)] ]} ] ∧
   arg_payload (Track_request m events) = Some events ∧
   arg_payload (ListLookupTables_request m) = None) ∧
  (∀ proxy,
     Import_request (ProxyDataLocation proxy m) events options =
       Import_request m events options ∧
     Track_request (ProxyDataLocation proxy m) events = Track_request m events ∧
     ListLookupTables_request (ProxyDataLocation proxy m) = ListLookupTables_request m).
Proof.
  split; [done|]. split; [done|]. split; [|split].
  - unfold Track_request, Import_request, ListLookupTables_request. simpl arg_options.
    split; [apply list_elem_of_further, list_elem_of_here|].
    repeat split; intros Hin;
      repeat (apply elem_of_cons in Hin as [Hin|Hin]; [discriminate|]);
      by apply elem_of_nil in Hin.
  - unfold query_params. simpl.
    by rewrite Track_values_eq, ListLookupTables_values_eq.
  - done.
Qed.

(** ** Profile and group operations *)

(** X11. Each of the fourteen profile and group operations calls
    [doPeopleRequest] once, with a list of exactly one record that carries
    the client's own token and the distinct id (or group key and group
    id) it was given, and returns what that call returns: none sends a
    batch, another token or another subject. *)
Theorem operations_send_one_record (m : Mixpanel) :
  (∀ distinctID properties options,
     sends_one_record (λ d, PeopleSet d m distinctID properties options)
       m (Profile distinctID) peopleSetURL) ∧
  (∀ distinctID properties options,
     sends_one_record (λ d, PeopleSetOnce d m distinctID properties options)
       m (Profile distinctID) peopleSetOnceURL) ∧
  (∀ distinctID add,
     sends_one_record (λ d, PeopleIncrement d m distinctID add)
       m (Profile distinctID) peopleIncrementUrl) ∧
  (∀ distinctID union,
     sends_one_record (λ d, PeopleUnionProperty d m distinctID union)
       m (Profile distinctID) peopleUnionToListUrl) ∧
  (∀ distinctID append,
     sends_one_record (λ d, PeopleAppendListProperty d m distinctID append)
       m (Profile distinctID) peopleAppendToListUrl) ∧
  (∀ distinctID remove,
     sends_one_record (λ d, PeopleRemoveListProperty d m distinctID remove)
       m (Profile distinctID) peopleRemoveFromListUrl) ∧
  (∀ distinctID unset,
     sends_one_record (λ d, PeopleDeleteProperty d m distinctID unset)
       m (Profile distinctID) peopleDeletePropertyUrl) ∧
  (∀ distinctID ignoreAlias,
     sends_one_record (λ d, PeopleDeleteProfile d m distinctID ignoreAlias)
       m (Profile distinctID) peopleDeleteProfileUrl) ∧
  (∀ groupKey groupID set,
     sends_one_record (λ d, GroupUpdateProperty d m groupKey groupID set)
       m (Group groupKey groupID) groupSetUrl) ∧
  (∀ groupKey groupID set,
     sends_one_record (λ d, GroupSetOnce d m groupKey groupID set)
       m (Group groupKey groupID) groupsSetOnceUrl) ∧
  (∀ groupKey groupID unset,
     sends_one_record (λ d, GroupDeleteProperty d m groupKey groupID unset)
       m (Group groupKey groupID) groupsDeletePropertyUrl) ∧
  (∀ groupKey groupID remove,
     sends_one_record (λ d, GroupRemoveListProperty d m groupKey groupID remove)
       m (Group groupKey groupID) groupsRemoveFromListPropertyUrl) ∧
  (∀ groupKey groupID union,
     sends_one_record (λ d, GroupUnionListProperty d m groupKey groupID union)
       m (Group groupKey groupID) groupsUnionListPropertyUrl) ∧
  (∀ groupKey groupID,
     sends_one_record (λ d, GroupDelete d m groupKey groupID)
       m (Group groupKey groupID) groupsDeleteGroupUrl).
Proof.
  unfold sends_one_record.
  repeat split; intros; eexists; (split; [|split]); try (intros d; reflexivity);
    reflexivity.
Qed.

Lemma foldl_people_options_app (opts more : list (peopleOptions → peopleOptions)) :
  foldl (λ p o, o p) peopleOptions_zero (opts ++ more) =
  foldl (λ p o, o p) (foldl (λ p o, o p) peopleOptions_zero opts) more.
Proof. apply foldl_app. Qed.

(** X12. The options of [PeopleSet] and [PeopleSetOnce] are applied in the
    order given to a record that starts empty: with no option the address
    is empty and both coordinates are zero; the address and the
    coordinates are independent, so the two options commute; and of two
    options of the same kind the later one alone counts. *)
Theorem people_options_compose (IP_String : net_IP → string)
    (d : Mixpanel → list payload → string → option error) (m : Mixpanel)
    (distinctID : string) (properties : option (gmap string value))
    (opts : list (peopleOptions → peopleOptions))
    (ip ip' : net_IP) (lat long lat' long' : float) :
  PeopleSet d m distinctID properties [] =
    d m [PeopleSetPayload
           {| peopleSetPayload_Token := token m;
              peopleSetPayload_DistinctID := distinctID;
              peopleSetPayload_Set := properties;
              peopleSetPayload_peopleOptions :=
                {| peopleOptions_IP := ""; Latitude := 0; Longitude := 0 |} |}]
        peopleSetURL ∧
  PeopleSet d m distinctID properties
      (opts ++ [SetPeopleIP IP_String ip; SetPeopleLatLong lat long]) =
    PeopleSet d m distinctID properties
      (opts ++ [SetPeopleLatLong lat long; SetPeopleIP IP_String ip]) ∧
  PeopleSet d m distinctID properties
      (opts ++ [SetPeopleIP IP_String ip; SetPeopleLatLong lat long]) =
    d m [PeopleSetPayload
           {| peopleSetPayload_Token := token m;
              peopleSetPayload_DistinctID := distinctID;
              peopleSetPayload_Set := properties;
              peopleSetPayload_peopleOptions :=
                {| peopleOptions_IP := IP_String ip; Latitude := lat;
                   Longitude := long |} |}]
        peopleSetURL ∧
  PeopleSet d m distinctID properties
      (opts ++ [SetPeopleIP IP_String ip; SetPeopleIP IP_String ip']) =
    PeopleSet d m distinctID properties (opts ++ [SetPeopleIP IP_String ip']) ∧
  PeopleSet d m distinctID properties
      (opts ++ [SetPeopleLatLong lat long; SetPeopleLatLong lat' long']) =
    PeopleSet d m distinctID properties (opts ++ [SetPeopleLatLong lat' long']) ∧
  PeopleSetOnce d m distinctID properties
      (opts ++ [SetPeopleIP IP_String ip; SetPeopleLatLong lat long]) =
    PeopleSetOnce d m distinctID properties
      (opts ++ [SetPeopleLatLong lat long; SetPeopleIP IP_String ip]) ∧
  PeopleSetOnce d m distinctID properties
      (opts ++ [SetPeopleIP IP_String ip; SetPeopleIP IP_String ip']) =
    PeopleSetOnce d m distinctID properties (opts ++ [SetPeopleIP IP_String ip']) ∧
  PeopleSetOnce d m distinctID properties
      (opts ++ [SetPeopleLatLong lat long; SetPeopleLatLong lat' long']) =
    PeopleSetOnce d m distinctID properties (opts ++ [SetPeopleLatLong lat' long']).
Proof.
  unfold PeopleSet, PeopleSetOnce. rewrite !foldl_people_options_app.
  repeat split.
Qed.

(** ** Configuration, construction and serialisation together *)

(** X13. What is given to [NewClient] is what goes out, whatever options
    of the package follow: every event carries the client's token, and
    [Import] and [ListLookupTables] send the client's project id in
    decimal.  The three request operations address the API endpoint in
    force: with a proxy for the API as the last option, they go to the
    proxy's [/import], [/track] and [/lookup-tables]. *)
Theorem requests_carry_client_configuration (pid : Z) (tok sec proxy : string)
    (opts : list (Mixpanel → Mixpanel)) (events : list Event) (options : ImportOptions) :
  Forall client_option opts →
  (∀ name distinctID properties, ∃ e,
     NewEvent (NewClient pid tok sec opts) name distinctID properties = Ret e ∧
     map_index (Properties e) propertyToken = VString tok) ∧
  query_params (Import_request (NewClient pid tok sec opts) events options) =
    [ {[ "strict" := [if Strict options then "1" else "0"];
         "project_id" := [Itoa pid];
         "verbose" := ["1"] ]} ] ∧
  query_params (ListLookupTables_request (NewClient pid tok sec opts)) =
    [ {[ "project_id" := [Itoa pid] ]} ] ∧
  arg_url (Import_request (NewClient pid tok sec (opts ++ [ProxyApiLocation proxy]))
             events options) = proxy +:+ "/import" ∧
  arg_url (Track_request (NewClient pid tok sec (opts ++ [ProxyApiLocation proxy])) events)
    = proxy +:+ "/track" ∧
  arg_url (ListLookupTables_request (NewClient pid tok sec (opts ++ [ProxyApiLocation proxy])))
    = proxy +:+ "/lookup-tables".
Proof.
  intros Hopts.
  destruct (foldl_client_options_credentials opts
              {| apiEndpoint := usEndpoint; dataEndpoint := usDataEndpoint;
                 projectID := pid; token := tok; apiSecret := sec;
                 serviceAccount := None; debugHttp := false |} Hopts)
    as (Hpid & Htok & _).
  change (projectID (NewClient pid tok sec opts) = pid) in Hpid.
  change (token (NewClient pid tok sec opts) = tok) in Htok.
  split; [|split; [|split]].
  - intros. eexists. split; [apply NewEvent_unfold|].
    simpl. rewrite Htok. by simplify_map_eq.
  - unfold query_params. simpl. by rewrite Import_values_eq, Hpid.
  - unfold query_params. simpl. by rewrite ListLookupTables_values_eq, Hpid.
  - unfold NewClient. by rewrite !foldl_snoc.
Qed.

(** X13, an instance. *)
Lemma requests_carry_client_configuration_witness :
  Forall client_option [EuResidency; SetServiceAccount "svc" "s3cret"] ∧
  query_params (Import_request
    (NewClient 117 "project-token" "api-secret"
       [EuResidency; SetServiceAccount "svc" "s3cret"]) [] ImportOptionsRecommend) =
    [ {[ "strict" := ["1"]; "project_id" := [Itoa 117]; "verbose" := ["1"] ]} ].
Proof.
  assert (Forall client_option [EuResidency; SetServiceAccount "svc" "s3cret"]) as Hopts
    by (repeat constructor).
  split; [exact Hopts|].
  exact (proj1 (proj2 (requests_carry_client_configuration 117 "project-token" "api-secret"
    "" [EuResidency; SetServiceAccount "svc" "s3cret"] [] ImportOptionsRecommend Hopts))).
Defined.






Lemma Unmarshal_any_not_int64 (j : document) (n : Z) : Unmarshal_any j ≠ VInt64 n.
Proof. destruct j as [| |[]| | |]; discriminate. Qed.

Lemma reparse_Event_properties (m : Mixpanel) (e e2 : Event) :
  reparse_Event m e = Ok e2 →
  ∃ o : gmap string document, Properties e2 = Some (Unmarshal_any <$> o).
Proof.
  unfold reparse_Event, Marshal_Event.
  destruct (Marshal (value_of_map (Properties e))) as [pj|]; [|discriminate].
  simpl. intros [_ Hprops]%NewEventFromJson_Ok.
  unfold map_index in Hprops.
  rewrite lookup_fmap, lookup_insert_ne, lookup_singleton_eq in Hprops by done.
  simpl in Hprops.
  destruct pj as [| |[]| | |o]; try discriminate.
  injection Hprops as <-. by exists o.
Qed.

(** X15. The event that comes back from serialising and reparsing has a
    non-nil properties map that holds no [int64] under any key.  So an
    event on which [AddTime] has run never comes back as it was: whatever
    else it holds, its [time] is an [int64]. *)
Theorem AddTime_breaks_round_trip (m : Mixpanel) (t : time_Time) (e e' : Event) :
  AddTime t e = Ret e' →
  reparse_Event m e' ≠ Ok e' ∧
  ∀ e2, reparse_Event m e' = Ok e2 →
    ∃ p2, Properties e2 = Some p2 ∧ ∀ k n, p2 !! k ≠ Some (VInt64 n).
Proof.
  intros Hadd.
  assert (∀ e2, reparse_Event m e' = Ok e2 →
            ∃ p2, Properties e2 = Some p2 ∧ ∀ k n, p2 !! k ≠ Some (VInt64 n)) as Hback.
  { intros e2 (o & Ho)%reparse_Event_properties. eexists. split; [exact Ho|].
    intros k n (j & Hj & _)%lookup_fmap_Some. by apply Unmarshal_any_not_int64 in Hj. }
  split; [|exact Hback].
  intros (p2 & Hp2 & Hnone)%Hback.
  destruct e as [name [p|]]; [|discriminate]. injection Hadd as <-.
  simpl in Hp2. injection Hp2 as <-.
  by apply (Hnone propertyTime (UnixMilli t)), lookup_insert_eq.
Qed.

(** X15, an instance. *)
Lemma AddTime_breaks_round_trip_witness :
  AddTime sample_time {| Name := "signup"; Properties := Some ∅ |} = Ret sample_timed_event ∧
  reparse_Event sample_client sample_timed_event ≠ Ok sample_timed_event.
Proof.
  split; [reflexivity|].
  exact (proj1 (AddTime_breaks_round_trip sample_client sample_time
                  {| Name := "signup"; Properties := Some ∅ |} sample_timed_event eq_refl)).
Defined.


